(** * Perplexity client: context-window policy and completion gateway

    A shallow embedding of [PerplexityClient] (the API client library) and of
    the [POST /chat] handler of the Express server, followed by the
    properties of the conversation-compaction policy, of the request that
    each convenience method submits, and of the error translation.

    Conventions of the embedding:
    - a JavaScript string is a [string]; [String.length] stands for
      [.length] (one character per code unit);
    - a conversation is a [list Message], a message being an object with a
      string [role] and a string [content] (the data model of the API);
    - a JavaScript number that the code computes with (lengths, counts,
      thresholds) is a [Z]; numbers that are only carried (temperature,
      max_tokens) are rationals inside [jsval];
    - an object used as an option bag or as a request body is a
      [gmap string jsval]; object spread is the right-biased merge;
    - the network, the environment and the clock live in [World]; code that
      awaits the provider or throws runs in the monad [M].  A timeout of the
      HTTP client is one of the failures the provider can answer with;
      console output is left out. *)

From Stdlib Require Import ZArith QArith Ascii String DecimalString.
From stdpp Require Import base option list strings gmap fin_maps.

Local Open Scope Z_scope.
Local Open Scope string_scope.

(** ** Values *)

Record Message := mkMessage { role : string; content : string }.

(** JSON-like values that travel in option bags and request bodies.  An
    array is always an array of messages here: it is the only kind of array
    the code looks into. *)
#[local] Set Warnings "-register-all".
Inductive jsval :=
| JUndefined
| JNull
| JBool (b : bool)
| JNum (q : Q)
| JStr (s : string)
| JArr (ms : list Message)
| JObj (fields : list (string * jsval)).

Abbreviation object := (gmap string jsval).

(** [Array.isArray(v)] *)
Definition isArray (v : jsval) : bool :=
  match v with JArr _ => true | _ => false end.

(** [x || d] on an optional string: [undefined], [null] and the empty string
    are falsy. *)
Definition or_else (x : option string) (d : string) : string :=
  match x with
  | Some s => if String.eqb s "" then d else s
  | None => d
  end.

(** [x || y] where both sides are optional strings. *)
Definition or_opt (x y : option string) : option string :=
  match x with
  | Some s => if String.eqb s "" then y else Some s
  | None => y
  end.

(** ** Strings *)

(** [s.substring(indexStart, indexEnd)]: both indices are clamped to
    [0, s.length] and swapped when out of order. *)
Definition js_substring (s : string) (indexStart indexEnd : Z) : string :=
  let len := Z.of_nat (String.length s) in
  let a := Z.min (Z.max indexStart 0) len in
  let b := Z.min (Z.max indexEnd 0) len in
  let from := Z.min a b in
  let to := Z.max a b in
  String.substring (Z.to_nat from) (Z.to_nat (to - from)) s.

(** [s.repeat(count)] for a count that is not negative. *)
Fixpoint js_repeat (s : string) (count : nat) : string :=
  match count with
  | O => ""
  | S n => s +:+ js_repeat s n
  end.

(** [items.join(sep)] *)
Fixpoint js_join (sep : string) (items : list string) : string :=
  match items with
  | [] => ""
  | [x] => x
  | x :: rest => x +:+ sep +:+ js_join sep rest
  end.

(** Decimal rendering of a number that is a natural number, as a template
    literal interpolates it. *)
Definition show_N (n : N) : string :=
  NilZero.string_of_uint (N.to_uint n).

(** [list.slice(start, end)], with negative indices counted from the end. *)
Definition js_slice {A} (l : list A) (start stop : Z) : list A :=
  let len := Z.of_nat (length l) in
  let rel (i : Z) := if (i <? 0)%Z then Z.max (len + i) 0 else Z.min i len in
  let k := rel start in
  let final := rel stop in
  take (Z.to_nat (Z.max (final - k) 0)) (drop (Z.to_nat k) l).

(** ** The client object *)

Record PerplexityClient := mkClient { apiKey : string; baseURL : string }.

(** [shouldSummarize(messages, maxMessages = 20, maxTokensEstimate = 3000)];
    an omitted argument is [None]. *)
Definition shouldSummarize (messages : list Message)
    (maxMessages maxTokensEstimate : option Z) : bool :=
  let maxMessages := default 20 maxMessages in
  let maxTokensEstimate := default 3000 maxTokensEstimate in
  if Z.of_nat (length messages) >=? maxMessages then true
  else
    let totalChars :=
      fold_left (fun sum msg => sum + Z.of_nat (String.length (content msg)))
                messages 0 in
    totalChars >=? maxTokensEstimate * 4.

(** [getApiKey()] *)
Definition getApiKey (this : PerplexityClient) : string :=
  if String.eqb (apiKey this) "" then "No API key set"
  else
    js_substring (apiKey this) 0 8
    +:+ js_repeat "*"
          (Z.to_nat (Z.max 0 (Z.of_nat (String.length (apiKey this)) - 8))).

(** ** Provider responses and errors *)

(** The body of a successful completion:
    [{choices: [{message: {content}}], usage}]. *)
Record ChoiceMessage := mkChoiceMessage { msg_content : option string }.
Record Choice := mkChoice { choice_message : option ChoiceMessage }.
Record Payload := mkPayload { choices : option (list Choice); usage : jsval }.

(** [response.choices?.[0]?.message?.content] *)
Definition first_choice_content (response : Payload) : option string :=
  cs ← choices response; c ← head cs; m ← choice_message c; msg_content m.

(** The error envelope of the provider: [{error: {message}}] or
    [{message}]. *)
Record ErrorDetail := mkErrorDetail { detail_message : option string }.
Record ErrorData :=
  mkErrorData { data_error : option ErrorDetail; data_message : option string }.
Record ErrorResponse :=
  mkErrorResponse { status : N; statusText : string; data : option ErrorData }.

(** What [handleError] reads of a thrown value: [error.response],
    whether [error.request] is set, and [error.message]. *)
Record JsError :=
  mkJsError { err_response : option ErrorResponse;
              err_request : bool;
              err_message : string }.

(** [new Error(message)] *)
Definition Error (message : string) : JsError :=
  mkJsError None false message.

(** ** The world and the monad of awaiting, throwing code *)

Record HttpRequest :=
  mkHttpRequest { url : string; authorization : string; body : object }.

Inductive Outcome :=
| Responded (payload : Payload)
| Failed (error : JsError).

Record World := mkWorld {
  (** what the provider answers to a POST, given the earlier ones *)
  provider : list HttpRequest -> HttpRequest -> Outcome;
  (** [process.env.PERPLEXITY_DEFAULT_MODEL] *)
  PERPLEXITY_DEFAULT_MODEL : option string;
  (** [new Date().toISOString()] *)
  now : string;
  (** the POSTs made so far, oldest first *)
  posted : list HttpRequest
}.

Inductive Result (A : Type) :=
| Ok (a : A)
| Throw (e : JsError).
Arguments Ok {A} a.
Arguments Throw {A} e.

Definition M (A : Type) : Type := World -> Result A * World.

#[global] Instance M_ret : MRet M := fun A a w => (Ok a, w).
#[global] Instance M_bind : MBind M := fun A B f m w =>
  match m w with
  | (Ok a, w') => f a w'
  | (Throw e, w') => (Throw e, w')
  end.

Definition throw {A} (e : JsError) : M A := fun w => (Throw e, w).

(** [try { body } catch (error) { handler(error) }] *)
Definition try_catch {A} (body : M A) (handler : JsError -> M A) : M A :=
  fun w =>
    match body w with
    | (Ok a, w') => (Ok a, w')
    | (Throw e, w') => handler e w'
    end.

Definition getenv_default_model : M (option string) :=
  fun w => (Ok (PERPLEXITY_DEFAULT_MODEL w), w).

Definition toISOString_now : M string := fun w => (Ok (now w), w).

(** The world once [req] has been posted. *)
Definition after_post (w : World) (req : HttpRequest) : World :=
  mkWorld (provider w) (PERPLEXITY_DEFAULT_MODEL w) (now w)
          (posted w ++ [req])%list.

(** [await this.client.post(path, data)], giving [response.data]. *)
Definition client_post (this : PerplexityClient) (path : string) (data : object)
  : M Payload :=
  fun w =>
    let req := mkHttpRequest (baseURL this +:+ path)
                             ("Bearer " +:+ apiKey this) data in
    match provider w (posted w) req with
    | Responded payload => (Ok payload, after_post w req)
    | Failed error => (Throw error, after_post w req)
    end.

(** ** Objects *)

(** JavaScript truthiness. *)
Definition truthy (v : jsval) : bool :=
  match v with
  | JUndefined | JNull => false
  | JBool b => b
  | JNum q => negb (Qeq_bool q 0)
  | JStr s => negb (String.eqb s "")
  | JArr _ | JObj _ => true
  end.

(** [o.k] *)
Definition get (o : object) (k : string) : jsval :=
  default JUndefined (o !! k).

(** [const { k = d } = o]: the default applies when [o.k] is [undefined]. *)
Definition get_or (o : object) (k : string) (d : jsval) : jsval :=
  match get o k with
  | JUndefined => d
  | v => v
  end.

(** [{ ...o }] without the listed keys (the rest of a destructuring). *)
Definition rest_without (ks : list string) (o : object) : object :=
  foldr delete o ks.

(** [{ ...base, ...extra }]: the properties of [extra] win. *)
Definition spread (base extra : object) : object := extra ∪ base.

(** ** The gateway *)

(** [data?.error?.message || data?.message || 'Unknown error'] *)
Definition upstream_message (r : ErrorResponse) : string :=
  or_else (or_opt (d ← data r; e ← data_error d; detail_message e)
                  (d ← data r; data_message d))
          "Unknown error".

(** [handleError(error)]: always throws. *)
Definition handleError {A} (error : JsError) : M A :=
  match err_response error with
  | Some r =>
      throw (Error ("Perplexity API Error " +:+ show_N (status r)
                    +:+ " (" +:+ statusText r +:+ "): " +:+ upstream_message r))
  | None =>
      if err_request error then
        throw (Error "No response from Perplexity API. Check your internet connection.")
      else
        throw (Error ("Request Error: " +:+ err_message error))
  end.

(** The [requestData] object that [chatCompletion] builds from its
    options, [env] being the default model of the environment. *)
Definition requestData (env : option string) (options : object) : object :=
  let model := get_or options "model" (JStr (or_else env "sonar")) in
  let messages := get options "messages" in
  let max_tokens := get_or options "max_tokens" (JNum 1000) in
  let temperature := get_or options "temperature" (JNum (2 # 10)) in
  let stream := get_or options "stream" (JBool false) in
  let otherOptions :=
    rest_without ["model"; "messages"; "max_tokens"; "temperature"; "stream"]
                 options in
  spread (<["model" := model]>
          (<["messages" := messages]>
           (<["max_tokens" := max_tokens]>
            (<["temperature" := temperature]>
             {["stream" := stream]}))))
         otherOptions.

(** [chatCompletion(options)] *)
Definition chatCompletion (this : PerplexityClient) (options : object)
  : M Payload :=
  try_catch
    (env ← getenv_default_model;
     let messages := get options "messages" in
     if negb (truthy messages) || negb (isArray messages) then
       throw (Error "Messages array is required")
     else
       client_post this "/chat/completions" (requestData env options))
    handleError.

(** [ask(question, options = {})] *)
Definition ask (this : PerplexityClient) (question : string)
    (options : option object) : M string :=
  let options := default ∅ options in
  try_catch
    (let messages := [mkMessage "user" question] in
     response ← chatCompletion this
                  (spread {["messages" := JArr messages]} options);
     mret (or_else (first_choice_content response) "No response received"))
    handleError.

(** [askWithContext(question, context = [], options = {})] *)
Definition askWithContext (this : PerplexityClient) (question : string)
    (context : option (list Message)) (options : option object) : M string :=
  let context := default [] context in
  let options := default ∅ options in
  try_catch
    (let messages := (context ++ [mkMessage "user" question])%list in
     response ← chatCompletion this
                  (spread {["messages" := JArr messages]} options);
     mret (or_else (first_choice_content response) "No response received"))
    handleError.

Definition LF : string := String "010"%char "".

Definition summaryPrompt (conversationText : string) : string :=
  "Please provide a concise summary of the following conversation, capturing the key points, context, and important details that should be remembered for future messages. Focus on the main topics discussed and any important information shared:"
  +:+ LF +:+ LF +:+ conversationText +:+ LF +:+ LF +:+ "Summary:".

(** The flattened [role: content] transcript, one message per line. *)
Definition conversationText (messages : list Message) : string :=
  js_join LF (map (fun msg => role msg +:+ ": " +:+ content msg) messages).

(** [summarizeConversation(messages, options = {})] *)
Definition summarizeConversation (this : PerplexityClient)
    (messages : list Message) (options : option object) : M string :=
  let options := default ∅ options in
  try_catch
    (response ← chatCompletion this
                  (spread (<["messages" :=
                               JArr [mkMessage "user"
                                       (summaryPrompt (conversationText messages))]]>
                           {["max_tokens" := JNum 500]})
                          options);
     mret (or_else (first_choice_content response) "Unable to generate summary"))
    handleError.

(** ** The server: [POST /chat] *)

Inductive Reply :=
| ReplyError (code : N) (error message : string)
| ReplyChat (response : Payload) (summarized : bool) (summary : option string)
            (originalMessageCount finalMessageCount : nat) (timestamp : string).

(** The handler behind the [requireClient] middleware.  [perplexityClient]
    is the server's client, [None] when its initialisation failed;
    [req_body] is the parsed JSON body. *)
Definition post_chat (perplexityClient : option PerplexityClient)
    (req_body : object) : M Reply :=
  match perplexityClient with
  | None =>
      mret (ReplyError 500 "Perplexity client not initialized"
                       "Please check your API key configuration")
  | Some client =>
      try_catch
        (let model := get req_body "model" in
         let max_tokens := get req_body "max_tokens" in
         let temperature := get req_body "temperature" in
         let otherOptions :=
           rest_without ["messages"; "model"; "max_tokens"; "temperature"]
                        req_body in
         match get req_body "messages" with
         | JArr messages =>
             '(finalMessages, wassummarized, summaryText) ←
               (if shouldSummarize messages None None then
                  let currentMessage := messages !! (length messages - 1)%nat in
                  let messagesToSummarize := js_slice messages 0 (-1) in
                  if (0 <? length messagesToSummarize)%nat then
                    summaryText ← summarizeConversation client messagesToSummarize None;
                    mret (mkMessage "system"
                            ("Previous conversation summary: " +:+ summaryText)
                          :: option_list currentMessage,
                          true, summaryText)
                  else mret (messages, false, "")
                else mret (messages, false, ""));
             response ← chatCompletion client
                          (spread (<["messages" := JArr finalMessages]>
                                   (<["model" := model]>
                                    (<["max_tokens" := max_tokens]>
                                     {["temperature" := temperature]})))
                                  otherOptions);
             timestamp ← toISOString_now;
             mret (ReplyChat response wassummarized
                             (if wassummarized then Some summaryText else None)
                             (length messages) (length finalMessages) timestamp)
         | _ =>
             (* [!messages || !Array.isArray(messages)] *)
             mret (ReplyError 400 "Missing required field"
                     "Please provide a messages array in the request body")
         end)
        (fun error => mret (ReplyError 500 "API Error" (err_message error)))
  end.

(** ** The client: construction and key update *)

(** [new PerplexityClient(apiKey, baseURL = 'https://api.perplexity.ai')];
    an omitted argument is [None]. *)
Definition new_PerplexityClient (apiKey : option string)
    (baseURL : option string) : Result PerplexityClient :=
  match apiKey with
  | Some key =>
      if String.eqb key "" then Throw (Error "API key is required")
      else Ok (mkClient key (default "https://api.perplexity.ai" baseURL))
  | None => Throw (Error "API key is required")
  end.

(** [setApiKey(apiKey)]: the client with its key (and with it the
    [Authorization] header of its requests) replaced. *)
Definition setApiKey (this : PerplexityClient) (apiKey : option string)
  : Result PerplexityClient :=
  match apiKey with
  | Some key =>
      if String.eqb key "" then Throw (Error "API key cannot be empty")
      else Ok (mkClient key (baseURL this))
  | None => Throw (Error "API key cannot be empty")
  end.

(** ** The server: [POST /ask], [POST /ask-stream], [POST /summarize] *)

(** [s.split(sep)] for a separator of one character. *)
Fixpoint js_split (sep : ascii) (s : string) : list string :=
  match s with
  | EmptyString => [""]
  | String c rest =>
      if Ascii.eqb c sep then "" :: js_split sep rest
      else match js_split sep rest with
           | word :: words => String c word :: words
           | [] => [String c ""]
           end
  end.

(** The chunks of the simulated stream:
    [i === 0 ? words[i] : ' ' + words[i]]. *)
Definition word_chunks (words : list string) : list string :=
  imap (fun i word => if (i =? 0)%nat then word else " " +:+ word) words.

Inductive AskReply :=
| AskError (code : N) (error message : string)
| AskAnswer (question answer timestamp : string).

(** [POST /ask] behind [requireClient].  [question] and [options] are the
    two parts of the destructured body, [const { question, ...options } =
    req.body]; a question that is present is a string. *)
Definition post_ask (perplexityClient : option PerplexityClient)
    (question : option string) (options : object) : M AskReply :=
  match perplexityClient with
  | None =>
      mret (AskError 500 "Perplexity client not initialized"
                     "Please check your API key configuration")
  | Some client =>
      try_catch
        (if String.eqb (or_else question "") "" then
           (* [!question] *)
           mret (AskError 400 "Missing required field"
                   "Please provide a question in the request body")
         else
           answer ← ask client (or_else question "") (Some options);
           timestamp ← toISOString_now;
           mret (AskAnswer (or_else question "") answer timestamp))
        (fun error => mret (AskError 500 "API Error" (err_message error)))
  end.

(** What [POST /ask-stream] writes after the event-stream headers: a
    [data:] line holding [{choices: [{delta: {content}}]}], the line
    [data: [DONE]], or the line [data: {"error": "<message>"}]. *)
Inductive SseEvent :=
| SseDelta (content : string)
| SseDone
| SseError (message : string).

Inductive AskStreamReply :=
| AskStreamError (code : N) (error message : string)
| AskStreamEvents (events : list SseEvent).

(** [POST /ask-stream] behind [requireClient], on the destructured body as
    for [post_ask].  The pauses between the chunks are left out. *)
Definition post_ask_stream (perplexityClient : option PerplexityClient)
    (question : option string) (options : object) : M AskStreamReply :=
  match perplexityClient with
  | None =>
      mret (AskStreamError 500 "Perplexity client not initialized"
                           "Please check your API key configuration")
  | Some client =>
      if String.eqb (or_else question "") "" then
        mret (AskStreamError 400 "Missing required field"
                "Please provide a question in the request body")
      else
        try_catch
          (streamResponse ←
             chatCompletion client
               (spread (<["messages" :=
                            JArr [mkMessage "user" (or_else question "")]]>
                        {["stream" := JBool true]})
                       options);
           let fullResponse :=
             or_else (first_choice_content streamResponse)
                     "No response received" in
           let words := js_split " " fullResponse in
           mret (AskStreamEvents
                   (map SseDelta (word_chunks words) ++ [SseDone])%list))
          (fun streamError =>
             mret (AskStreamEvents [SseError (err_message streamError)]))
  end.

Inductive SummarizeReply :=
| SummarizeError (code : N) (error message : string)
| SummarizeDone (summary : string) (originalMessageCount : nat)
                (timestamp : string).

(** [POST /summarize] behind [requireClient]. *)
Definition post_summarize (perplexityClient : option PerplexityClient)
    (req_body : object) : M SummarizeReply :=
  match perplexityClient with
  | None =>
      mret (SummarizeError 500 "Perplexity client not initialized"
                           "Please check your API key configuration")
  | Some client =>
      try_catch
        (match get req_body "messages" with
         | JArr messages =>
             summary ← summarizeConversation client messages None;
             timestamp ← toISOString_now;
             mret (SummarizeDone summary (length messages) timestamp)
         | _ =>
             (* [!messages || !Array.isArray(messages)] *)
             mret (SummarizeError 400 "Missing required field"
                     "Please provide a messages array in the request body")
         end)
        (fun error => mret (SummarizeError 500 "API Error" (err_message error)))
  end.

(** ** Vocabulary of the properties *)

(** The sum of the content lengths of a conversation. *)
Definition total_content_length (conversation : list Message) : Z :=
  foldr (fun msg acc => Z.of_nat (String.length (content msg)) + acc) 0 conversation.

(** [part] occurs in [whole]. *)
Definition contains (part whole : string) : Prop :=
  exists before after, whole = before +:+ part +:+ after.

(** The three kinds of failure that the gateway tells apart. *)
Inductive ErrorKind := UpstreamError | NetworkError | OtherError.

Definition error_kind (error : JsError) : ErrorKind :=
  match err_response error with
  | Some _ => UpstreamError
  | None => if err_request error then NetworkError else OtherError
  end.

(** The kind that a translated message announces by its first word
    ([Perplexity API Error], [No response], [Request Error]). *)
Definition kind_of_message (msg : string) : option ErrorKind :=
  match msg with
  | String "P" _ => Some UpstreamError
  | String "N" _ => Some NetworkError
  | String "R" _ => Some OtherError
  | _ => None
  end.

(** An extracted content that [||] replaces by the sentinel. *)
Definition falsy_content (x : option string) : Prop :=
  x = None \/ x = Some "".

(** The POSTs that running [m] from [w] adds to the log are exactly [rs]. *)
Definition posts {A} (m : M A) (w : World) (rs : list HttpRequest) : Prop :=
  posted (snd (m w)) = (posted w ++ rs)%list.

(** The message list carried by a request. *)
Definition request_messages (r : HttpRequest) : option jsval :=
  body r !! "messages".

(** The request that [chatCompletion(options)] posts from the world [w]. *)
Definition completion_request (this : PerplexityClient) (w : World)
    (options : object) : HttpRequest :=
  mkHttpRequest (baseURL this +:+ "/chat/completions")
                ("Bearer " +:+ apiKey this)
                (requestData (PERPLEXITY_DEFAULT_MODEL w) options).

(** The runs of [chatCompletion(options)] from [w]: rejected before any
    POST, answered, or failed and translated. *)
Inductive completion_run (this : PerplexityClient) (options : object) (w : World)
  : Result Payload * World -> Prop :=
| run_rejected :
    isArray (get options "messages") = false ->
    completion_run this options w
      (Throw (Error "Request Error: Messages array is required"), w)
| run_responded payload :
    isArray (get options "messages") = true ->
    provider w (posted w) (completion_request this w options) = Responded payload ->
    completion_run this options w
      (Ok payload, after_post w (completion_request this w options))
| run_failed error msg :
    isArray (get options "messages") = true ->
    provider w (posted w) (completion_request this w options) = Failed error ->
    @handleError Payload error (after_post w (completion_request this w options))
    = (Throw (Error msg), after_post w (completion_request this w options)) ->
    completion_run this options w
      (Throw (Error msg), after_post w (completion_request this w options)).

(** The common body of [ask] and [askWithContext]: complete, then extract
    the first content or fall back on the sentinel. *)
Definition complete_and_extract (this : PerplexityClient) (options : object)
    (sentinel : string) : M string :=
  try_catch
    (response ← chatCompletion this options;
     mret (or_else (first_choice_content response) sentinel))
    handleError.

(** The options that [summarizeConversation(messages)] completes with. *)
Definition summary_options (messages : list Message) : object :=
  spread (<["messages" :=
              JArr [mkMessage "user" (summaryPrompt (conversationText messages))]]>
          {["max_tokens" := JNum 500]})
         ∅.

(** The options that [POST /chat] completes with, for the final messages. *)
Definition chat_options (req_body : object) (finalMessages : list Message)
  : object :=
  spread (<["messages" := JArr finalMessages]>
          (<["model" := get req_body "model"]>
           (<["max_tokens" := get req_body "max_tokens"]>
            {["temperature" := get req_body "temperature"]})))
         (rest_without ["messages"; "model"; "max_tokens"; "temperature"]
                       req_body).

(** The system turn that stands for the summarized prefix. *)
Definition summary_turn (summaryText : string) : Message :=
  mkMessage "system" ("Previous conversation summary: " +:+ summaryText).

(** What the round-trip property of [askWithContext] asks of a run: one
    POST, carrying the context followed by the question as a user turn. *)
Definition appends_question (this : PerplexityClient) (question : string)
    (context : option (list Message)) (options : option object) (w : World)
  : Prop :=
  exists r,
    posts (askWithContext this question context options) w [r]
    /\ request_messages r
       = Some (JArr (default [] context ++ [mkMessage "user" question])).

(** ** Scenarios *)

(** [n] copies of the message {user, "a" repeated [len] times}. *)
Definition filler (n len : nat) : list Message :=
  repeat (mkMessage "user" (js_repeat "a" len)) n.

(** Twelve messages of 1000 characters: 12000 characters, the boundary of
    the default token estimate. *)
Definition at_boundary : list Message := filler 12 1000.

(** One character less. *)
Definition below_boundary : list Message :=
  (filler 11 1000 ++ filler 1 999)%list.

(** The README conversation. *)
Definition learning_ai : list Message :=
  [ mkMessage "user" "Hi, I want to learn about AI";
    mkMessage "assistant" "I'd be happy to help!";
    mkMessage "user" "What are neural networks?" ].

(** A client, and worlds whose provider always answers the same. *)
Definition demo_client : PerplexityClient :=
  mkClient "pplx-abc12345" "https://api.perplexity.ai".

Definition stub (answer : Outcome) : World :=
  mkWorld (fun _ _ => answer) None "2025-08-22T10:30:00.000Z" [].

Definition answer_with (text : string) : Payload :=
  mkPayload (Some [mkChoice (Some (mkChoiceMessage (Some text)))]) JNull.

Definition no_choices : Payload := mkPayload (Some []) JNull.

(** An upstream 401 and a connection that never answers. *)
Definition unauthorized : JsError :=
  mkJsError
    (Some (mkErrorResponse 401 "Unauthorized"
             (Some (mkErrorData (Some (mkErrorDetail (Some "Invalid API key")))
                                None))))
    true "Request failed with status code 401".

Definition offline : JsError := mkJsError None true "Network Error".

(** A chat body whose history of 22 short messages is over the count
    threshold. *)
Definition long_history : list Message :=
  (filler 21 5 ++ [mkMessage "user" "What are neural networks?"])%list.

Definition long_chat_body : object := {["messages" := JArr long_history]}.

(** * Properties *)

(** ** The summarization predicate *)

Section Policy.

Implicit Types (c : list Message) (m : Message) (maxMessages maxTokenEstimate : option Z).

(** The accumulator of [reduce] only shifts the sum. *)
Lemma reduce_from c (start : Z) :
  fold_left (fun sum msg => sum + Z.of_nat (String.length (content msg))) c start
  = start + total_content_length c.
Proof.
  revert start. induction c as [|m c IH]; intros start; simpl.
  - lia.
  - rewrite IH. lia.
Qed.

Lemma total_content_length_app c1 c2 :
  total_content_length (c1 ++ c2)
  = total_content_length c1 + total_content_length c2.
Proof.
  unfold total_content_length. induction c1 as [|m c1 IH]; simpl; lia.
Qed.

Lemma total_content_length_nonneg c : 0 <= total_content_length c.
Proof.
  unfold total_content_length. induction c as [|m c IH]; simpl; lia.
Qed.

(** The predicate, as a proposition over the two measures. *)
Lemma shouldSummarize_true_iff c maxMessages maxTokenEstimate :
  shouldSummarize c maxMessages maxTokenEstimate = true
  <-> default 20 maxMessages <= Z.of_nat (length c)
      \/ default 3000 maxTokenEstimate * 4 <= total_content_length c.
Proof.
  unfold shouldSummarize. rewrite reduce_from, Z.add_0_l.
  destruct (Z.geb_spec (Z.of_nat (length c)) (default 20 maxMessages)) as [Hn|Hn].
  - split; [left; lia | reflexivity].
  - rewrite Z.geb_le. split; [tauto | intros [?|?]; [lia | assumption]].
Qed.

(** C1: below the message-count threshold, the predicate is true when the
    contents add up to exactly [maxTokenEstimate * 4] characters and false
    one character below; in particular at the defaults 20 and 3000. *)
Theorem shouldSummarize_boundary c maxMessages maxTokenEstimate :
  Z.of_nat (length c) < default 20 maxMessages ->
  (total_content_length c = default 3000 maxTokenEstimate * 4 ->
   shouldSummarize c maxMessages maxTokenEstimate = true)
  /\ (total_content_length c = default 3000 maxTokenEstimate * 4 - 1 ->
      shouldSummarize c maxMessages maxTokenEstimate = false).
Proof.
  intros Hcount. split; intros Htotal.
  - apply shouldSummarize_true_iff. right. lia.
  - apply not_true_is_false. rewrite shouldSummarize_true_iff. lia.
Qed.

Lemma shouldSummarize_boundary_witness :
  shouldSummarize at_boundary None None = true
  /\ shouldSummarize below_boundary None None = false.
Proof.
  split.
  - apply (shouldSummarize_boundary at_boundary None None);
      vm_compute; reflexivity.
  - apply (shouldSummarize_boundary below_boundary None None);
      vm_compute; reflexivity.
Defined.

(** C3: twenty messages or more trigger summarization at the default
    thresholds, whatever the contents are. *)
Theorem shouldSummarize_count_alone c :
  (20 <= length c)%nat -> shouldSummarize c None None = true.
Proof.
  intros Hlen. apply shouldSummarize_true_iff. left. simpl. lia.
Qed.

Lemma shouldSummarize_count_alone_witness :
  shouldSummarize (filler 20 0) None None = true.
Proof.
  apply (shouldSummarize_count_alone (filler 20 0)). simpl. lia.
Defined.

(** C4: appending a message never turns a [true] answer into [false],
    for any fixed pair of thresholds. *)
Theorem shouldSummarize_monotone_append c m maxMessages maxTokenEstimate :
  shouldSummarize c maxMessages maxTokenEstimate = true ->
  shouldSummarize (c ++ [m]) maxMessages maxTokenEstimate = true.
Proof.
  rewrite !shouldSummarize_true_iff, length_app, total_content_length_app.
  pose proof (total_content_length_nonneg [m]).
  intros [Hcount|Hchars]; [left | right]; lia.
Qed.

Lemma shouldSummarize_monotone_append_witness :
  shouldSummarize (at_boundary ++ [mkMessage "user" "one more"]) None None = true.
Proof.
  apply (shouldSummarize_monotone_append at_boundary). vm_compute. reflexivity.
Defined.

(** The scenario of the specification: three short messages do not
    trigger; eighteen more do. *)
Example shouldSummarize_scenario :
  shouldSummarize learning_ai None None = false
  /\ shouldSummarize (learning_ai ++ filler 18 5) None None = true.
Proof. split; vm_compute; reflexivity. Qed.

End Policy.

(** ** The masked API key *)

Section Masking.

Implicit Types (s : string) (i n : nat).

Lemma append_cons (a : ascii) s1 s2 :
  String a s1 +:+ s2 = String a (s1 +:+ s2).
Proof. reflexivity. Qed.

Lemma length_append s1 s2 :
  String.length (s1 +:+ s2) = (String.length s1 + String.length s2)%nat.
Proof.
  induction s1 as [|a s1 IH]; [reflexivity |].
  rewrite append_cons. simpl. now rewrite IH.
Qed.

Lemma length_stars n : String.length (js_repeat "*" n) = n.
Proof.
  induction n as [|n IH]; [reflexivity |].
  change (S (String.length (js_repeat "*" n)) = S n). now f_equal.
Qed.

Lemma get_stars i n :
  (i < n)%nat -> String.get i (js_repeat "*" n) = Some "*"%char.
Proof.
  revert i. induction n as [|n IH]; intros i Hi; [lia |].
  destruct i as [|i]; [reflexivity |].
  change (String.get i (js_repeat "*" n) = Some "*"%char). apply IH. lia.
Qed.

Lemma length_head_substring n s :
  String.length (String.substring 0 n s) = Nat.min n (String.length s).
Proof.
  revert s. induction n as [|n IH]; intros [|a s]; simpl; try reflexivity.
  now rewrite IH.
Qed.

Lemma head_substring_all n s :
  (String.length s <= n)%nat -> String.substring 0 n s = s.
Proof.
  revert s. induction n as [|n IH]; intros [|a s]; simpl; intros Hn;
    try reflexivity; [lia |].
  rewrite IH; [reflexivity | lia].
Qed.

Lemma stars_none n : n = 0%nat -> js_repeat "*" n = "".
Proof. now intros ->. Qed.

Lemma append_empty_r s : s +:+ "" = s.
Proof.
  induction s as [|a s IH]; [reflexivity |]. now rewrite append_cons, IH.
Qed.

(** [k.substring(0, 8)] keeps the first eight characters, or all of [k]. *)
Lemma js_substring_head s :
  js_substring s 0 8 = String.substring 0 (Nat.min 8 (String.length s)) s.
Proof.
  unfold js_substring.
  replace (Z.min (Z.max 0 0) (Z.of_nat (String.length s))) with 0 by lia.
  replace (Z.min 0 _) with 0 by lia.
  simpl Z.to_nat at 1. f_equal. lia.
Qed.

(** C10: for a non-empty key, [getApiKey] keeps the length of the key,
    shows its first [min 8 (length k)] characters and replaces every other
    character by a star; a key of at most eight characters comes back
    whole. *)
Theorem getApiKey_mask (this : PerplexityClient) :
  apiKey this <> "" ->
  String.length (getApiKey this) = String.length (apiKey this)
  /\ (forall i, (i < Nat.min 8 (String.length (apiKey this)))%nat ->
                String.get i (getApiKey this) = String.get i (apiKey this))
  /\ (forall i, (Nat.min 8 (String.length (apiKey this)) <= i
                 < String.length (apiKey this))%nat ->
                String.get i (getApiKey this) = Some "*"%char)
  /\ ((String.length (apiKey this) <= 8)%nat -> getApiKey this = apiKey this).
Proof.
  intros Hkey. unfold getApiKey.
  apply String.eqb_neq in Hkey. rewrite Hkey.
  set (k := apiKey this). set (len := String.length k).
  rewrite js_substring_head. fold len.
  set (shown := String.substring 0 (Nat.min 8 len) k).
  set (hidden := Z.to_nat (Z.max 0 (Z.of_nat len - 8))).
  assert (Hshown : String.length shown = Nat.min 8 len)
    by (unfold shown; rewrite length_head_substring; fold len; lia).
  repeat split.
  - rewrite length_append, Hshown, length_stars. unfold hidden. lia.
  - intros i Hi.
    rewrite <- append_correct1 by (rewrite Hshown; exact Hi).
    unfold shown. rewrite substring_correct1 by exact Hi.
    now rewrite Nat.add_0_r.
  - intros i [Hlo Hhi].
    replace i with ((i - Nat.min 8 len) + String.length shown)%nat
      by (rewrite Hshown; lia).
    rewrite <- append_correct2. apply get_stars. unfold hidden. lia.
  - intros Hshort.
    rewrite (stars_none hidden) by (unfold hidden; lia).
    rewrite append_empty_r. unfold shown.
    apply head_substring_all. fold len. lia.
Qed.

Lemma getApiKey_mask_witness :
  String.length (getApiKey (mkClient "pplx-abc12345" "https://api.perplexity.ai"))
  = 13%nat
  /\ getApiKey (mkClient "pplx-ab" "https://api.perplexity.ai") = "pplx-ab".
Proof.
  split.
  - apply (getApiKey_mask (mkClient "pplx-abc12345" "https://api.perplexity.ai")).
    discriminate.
  - apply (getApiKey_mask (mkClient "pplx-ab" "https://api.perplexity.ai")).
    + discriminate.
    + simpl. lia.
Defined.

(** The example of the documentation. *)
Example getApiKey_doc :
  getApiKey (mkClient "pplx-abc12345" "https://api.perplexity.ai") = "pplx-abc*****".
Proof. reflexivity. Qed.

End Masking.

(** ** The error translation *)

Section ErrorTranslation.

Implicit Types (error : JsError) (w : World) (r : ErrorResponse).

Lemma append_assoc (s1 s2 s3 : string) :
  (s1 +:+ s2) +:+ s3 = s1 +:+ (s2 +:+ s3).
Proof.
  induction s1 as [|a s1 IH]; [reflexivity |].
  now rewrite !append_cons, IH.
Qed.

Lemma contains_middle (before part after : string) :
  contains part (before +:+ part +:+ after).
Proof. now exists before, after. Qed.

Lemma contains_end (before part : string) : contains part (before +:+ part).
Proof. exists before, "". now rewrite append_empty_r. Qed.

Lemma contains_after (prefix part whole : string) :
  contains part whole -> contains part (prefix +:+ whole).
Proof.
  intros (before & after & ->). exists (prefix +:+ before), after.
  now rewrite append_assoc.
Qed.

(** Which provider text ends up in the message. *)
Lemma upstream_message_cases r :
  upstream_message r =
    match data r with
    | Some d =>
        match data_error d ≫= detail_message with
        | Some m => if String.eqb m "" then or_else (data_message d) "Unknown error"
                    else m
        | None => or_else (data_message d) "Unknown error"
        end
    | None => "Unknown error"
    end.
Proof.
  unfold upstream_message.
  destruct (data r) as [d|]; simpl; [|reflexivity].
  destruct (data_error d) as [e|]; simpl; [|reflexivity].
  destruct (detail_message e) as [m|]; [|reflexivity].
  unfold or_opt, or_else.
  destruct (String.eqb m "") eqn:Hm; [reflexivity | now rewrite Hm].
Qed.

Lemma handleError_upstream A error w r :
  err_response error = Some r ->
  @handleError A error w =
    (Throw (Error ("Perplexity API Error " +:+ show_N (status r)
                   +:+ " (" +:+ statusText r +:+ "): " +:+ upstream_message r)),
     w).
Proof. intros H. unfold handleError. now rewrite H. Qed.

Lemma handleError_network A error w :
  err_response error = None -> err_request error = true ->
  @handleError A error w =
    (Throw (Error "No response from Perplexity API. Check your internet connection."),
     w).
Proof. intros H1 H2. unfold handleError. now rewrite H1, H2. Qed.

Lemma handleError_other A error w :
  err_response error = None -> err_request error = false ->
  @handleError A error w =
    (Throw (Error ("Request Error: " +:+ err_message error)), w).
Proof. intros H1 H2. unfold handleError. now rewrite H1, H2. Qed.

Lemma handleError_kind A error w :
  exists msg, @handleError A error w = (Throw (Error msg), w)
              /\ kind_of_message msg = Some (error_kind error).
Proof.
  unfold handleError, error_kind.
  destruct (err_response error) as [r|]; [|destruct (err_request error)];
    eexists; (split; [reflexivity | reflexivity]).
Qed.

(** C8: the translation is total and tells three kinds apart.  A failure
    with a provider response raises a message that starts with
    [Perplexity API Error] and contains the status code, the status text
    and the provider's message; a failure without response but with a
    request raises one fixed connectivity message; any other failure
    raises [Request Error:] followed by its message; and two failures of
    different kinds never raise the same message. *)
Theorem handleError_translation :
  (forall A error w r,
      err_response error = Some r ->
      exists msg,
        @handleError A error w = (Throw (Error msg), w)
        /\ (exists rest, msg = "Perplexity API Error " +:+ rest)
        /\ contains (show_N (status r)) msg
        /\ contains (statusText r) msg
        /\ contains (upstream_message r) msg)
  /\ (forall A error w,
        err_response error = None -> err_request error = true ->
        @handleError A error w =
          (Throw (Error "No response from Perplexity API. Check your internet connection."),
           w))
  /\ (forall A error w,
        err_response error = None -> err_request error = false ->
        @handleError A error w =
          (Throw (Error ("Request Error: " +:+ err_message error)), w))
  /\ (forall A error1 error2 w1 w2,
        error_kind error1 <> error_kind error2 ->
        fst (@handleError A error1 w1) <> fst (@handleError A error2 w2)).
Proof.
  split; [|split; [|split]].
  - intros A error w r Hr. eexists. split; [exact (handleError_upstream A error w r Hr) |].
    split; [now eexists |]. repeat split.
    + apply contains_middle.
    + do 2 apply contains_after. apply contains_middle.
    + do 4 apply contains_after. apply contains_end.
  - apply handleError_network.
  - apply handleError_other.
  - intros A error1 error2 w1 w2 Hkinds Hsame.
    destruct (handleError_kind A error1 w1) as (msg1 & H1 & K1).
    destruct (handleError_kind A error2 w2) as (msg2 & H2 & K2).
    rewrite H1, H2 in Hsame. simpl in Hsame.
    injection Hsame as Hmsg. rewrite Hmsg in K1. congruence.
Qed.

Lemma handleError_translation_witness :
  (exists msg,
      @handleError unit unauthorized (stub (Failed unauthorized))
      = (Throw (Error msg), stub (Failed unauthorized))
      /\ contains "401" msg /\ contains "Unauthorized" msg
      /\ contains "Invalid API key" msg)
  /\ fst (@handleError unit offline (stub (Failed offline)))
     = Throw (Error "No response from Perplexity API. Check your internet connection.")
  /\ fst (@handleError unit unauthorized (stub (Failed unauthorized)))
     <> fst (@handleError unit offline (stub (Failed offline))).
Proof.
  destruct handleError_translation as (Hup & Hnet & _ & Hdistinct).
  split; [|split].
  - destruct (Hup unit unauthorized (stub (Failed unauthorized)) _ eq_refl)
      as (msg & Hrun & _ & Hcode & Htext & Hmsg).
    exists msg. repeat split; assumption.
  - rewrite (Hnet unit offline (stub (Failed offline))); reflexivity.
  - apply Hdistinct. discriminate.
Defined.

(** The 401 scenario, evaluated. *)
Example handleError_unauthorized :
  fst (@handleError unit unauthorized (stub (Failed unauthorized)))
  = Throw (Error "Perplexity API Error 401 (Unauthorized): Invalid API key").
Proof. reflexivity. Qed.

End ErrorTranslation.

(** ** The gateway *)

Section Gateway.

Implicit Types (this : PerplexityClient) (w : World) (options : object)
         (r : HttpRequest) (p : Payload).

Lemma handleError_throws A (error : JsError) w :
  exists msg, @handleError A error w = (Throw (Error msg), w).
Proof. destruct (handleError_kind A error w) as (msg & H & _). eauto. Qed.

(** The guard of [chatCompletion] lets exactly the arrays through. *)
Lemma messages_guard (v : jsval) :
  negb (truthy v) || negb (isArray v) = negb (isArray v).
Proof. destruct v; simpl; try reflexivity; now rewrite orb_true_r. Qed.

Lemma chatCompletion_spec this options w :
  completion_run this options w (chatCompletion this options w).
Proof.
  unfold chatCompletion, try_catch, mbind, M_bind, getenv_default_model.
  rewrite messages_guard.
  destruct (isArray (get options "messages")) eqn:Harr; simpl.
  - unfold client_post. fold (completion_request this w options).
    destruct (provider w (posted w) (completion_request this w options))
      as [payload|error] eqn:Hp.
    + now apply run_responded.
    + destruct (handleError_throws Payload error
                  (after_post w (completion_request this w options)))
        as (msg & Hmsg).
      rewrite Hmsg. now apply (run_failed _ _ _ error).
  - now apply run_rejected.
Qed.

(** [chatCompletion] posts at most once, and only the request built from
    its options. *)
Lemma chatCompletion_posts this options w :
  posts (chatCompletion this options) w
        (if isArray (get options "messages")
         then [completion_request this w options] else []).
Proof.
  unfold posts.
  destruct (chatCompletion_spec this options w) as [Harr|p Harr Hp|e msg Harr Hp He];
    rewrite Harr; simpl; [now rewrite app_nil_r | reflexivity | reflexivity].
Qed.

Lemma complete_and_extract_run this options sentinel w :
  complete_and_extract this options sentinel w =
    match chatCompletion this options w with
    | (Ok p, w') => (Ok (or_else (first_choice_content p) sentinel), w')
    | (Throw e, w') => handleError e w'
    end.
Proof.
  unfold complete_and_extract, try_catch, mbind, M_bind, mret, M_ret.
  now destruct (chatCompletion this options w) as [[p|e] w'].
Qed.

Lemma complete_and_extract_posts this options sentinel w :
  posts (complete_and_extract this options sentinel) w
        (if isArray (get options "messages")
         then [completion_request this w options] else []).
Proof.
  pose proof (chatCompletion_posts this options w) as Hposts.
  unfold posts in *. rewrite complete_and_extract_run.
  destruct (chatCompletion this options w) as [[p|e] w']; simpl in *;
    [assumption |].
  destruct (handleError_throws string e w') as (msg & ->). assumption.
Qed.

(** When the single POST is answered, the convenience methods return the
    first content of the answer, or the sentinel if it is falsy. *)
Lemma complete_and_extract_answered this options sentinel w r p :
  posts (complete_and_extract this options sentinel) w [r] ->
  provider w (posted w) r = Responded p ->
  fst (complete_and_extract this options sentinel w)
  = Ok (or_else (first_choice_content p) sentinel).
Proof.
  intros Hposts Hanswer.
  pose proof (complete_and_extract_posts this options sentinel w) as Hlog.
  unfold posts in *. rewrite Hposts in Hlog. apply app_inv_head in Hlog.
  rewrite complete_and_extract_run.
  destruct (chatCompletion_spec this options w) as [Harr|p' Harr Hp|e msg Harr Hp He];
    rewrite Harr in Hlog; try discriminate; injection Hlog as ->.
  - rewrite Hanswer in Hp. now injection Hp as ->.
  - congruence.
Qed.

Lemma ask_unfold this question (options : option object) :
  ask this question options
  = complete_and_extract this
      (spread {["messages" := JArr [mkMessage "user" question]]}
              (default ∅ options))
      "No response received".
Proof. reflexivity. Qed.

Lemma askWithContext_unfold this question context (options : option object) :
  askWithContext this question context options
  = complete_and_extract this
      (spread {["messages" :=
                  JArr (default [] context ++ [mkMessage "user" question])]}
              (default ∅ options))
      "No response received".
Proof. reflexivity. Qed.

Lemma rest_without_lookup (ks : list string) options (k : string) :
  rest_without ks options !! k = if decide (k ∈ ks) then None else options !! k.
Proof.
  unfold rest_without. induction ks as [|k' ks IH]; cbn [foldr].
  - destruct (decide (k ∈ [])) as [Hin|_]; [|reflexivity].
    now apply elem_of_nil in Hin.
  - destruct (decide (k' = k)) as [->|Hne].
    + rewrite lookup_delete_eq.
      destruct (decide (k ∈ k :: ks)) as [_|Hout]; [reflexivity |].
      exfalso. apply Hout, list_elem_of_here.
    + rewrite lookup_delete_ne, IH by exact Hne.
      destruct (decide (k ∈ ks)) as [Hin|Hout],
               (decide (k ∈ k' :: ks)) as [Hin'|Hout']; try reflexivity.
      * exfalso. now apply Hout', list_elem_of_further.
      * apply elem_of_cons in Hin' as [Heq|Hin]; [now subst | contradiction].
Qed.

(** The request body carries the [messages] of the options, untouched. *)
Lemma requestData_messages (env : option string) options :
  requestData env options !! "messages" = Some (get options "messages").
Proof.
  unfold requestData, spread.
  rewrite lookup_union_r by (rewrite rest_without_lookup; reflexivity).
  rewrite lookup_insert_ne by discriminate. apply lookup_insert_eq.
Qed.

Lemma completion_request_messages this w options :
  request_messages (completion_request this w options)
  = Some (get options "messages").
Proof. apply requestData_messages. Qed.

(** Spreading options over an object literal: the options win. *)
Lemma get_spread (base extra : object) (k : string) :
  get (spread base extra) k
  = match extra !! k with Some v => v | None => get base k end.
Proof.
  unfold get, spread. rewrite lookup_union.
  destruct (extra !! k), (base !! k); reflexivity.
Qed.

(** C6: when the provider answers the request of [ask] with an empty
    [choices] array, [ask] returns the sentinel as a normal result. *)
Theorem ask_no_choices this (question : string) (options : option object) w r p :
  posts (ask this question options) w [r] ->
  provider w (posted w) r = Responded p ->
  choices p = Some [] ->
  fst (ask this question options w) = Ok "No response received".
Proof.
  intros Hposts Hanswer Hchoices. rewrite ask_unfold in *.
  rewrite (complete_and_extract_answered _ _ _ _ r p Hposts Hanswer).
  unfold first_choice_content. rewrite Hchoices. reflexivity.
Qed.

Lemma ask_no_choices_witness :
  fst (ask demo_client "What is the capital of France?" None
           (stub (Responded no_choices)))
  = Ok "No response received".
Proof.
  apply (ask_no_choices demo_client "What is the capital of France?" None
           (stub (Responded no_choices))
           (completion_request demo_client (stub (Responded no_choices))
              {["messages" :=
                  JArr [mkMessage "user" "What is the capital of France?"]]})
           no_choices).
  - vm_compute. reflexivity.
  - reflexivity.
  - reflexivity.
Defined.

(** A stubbed answer comes back as it is. *)
Example ask_paris :
  fst (ask demo_client "What is the capital of France?" None
           (stub (Responded (answer_with "Paris"))))
  = Ok "Paris".
Proof. vm_compute. reflexivity. Qed.

(** C9: when the first content of the provider's answer is falsy, the
    empty string included, [ask] and [askWithContext] return the sentinel
    and not that content. *)
Theorem falsy_content_gives_sentinel this (question : string)
    (context : option (list Message)) (options : option object) w p :
  falsy_content (first_choice_content p) ->
  (forall r,
      posts (ask this question options) w [r] ->
      provider w (posted w) r = Responded p ->
      fst (ask this question options w) = Ok "No response received")
  /\ (forall r,
        posts (askWithContext this question context options) w [r] ->
        provider w (posted w) r = Responded p ->
        fst (askWithContext this question context options w)
        = Ok "No response received").
Proof.
  intros Hfalsy.
  assert (Hsentinel :
            or_else (first_choice_content p) "No response received"
            = "No response received")
    by (destruct Hfalsy as [-> | ->]; reflexivity).
  split; intros r Hposts Hanswer.
  - rewrite ask_unfold in *.
    rewrite (complete_and_extract_answered _ _ _ _ r p Hposts Hanswer).
    now rewrite Hsentinel.
  - rewrite askWithContext_unfold in *.
    rewrite (complete_and_extract_answered _ _ _ _ r p Hposts Hanswer).
    now rewrite Hsentinel.
Qed.

Lemma falsy_content_gives_sentinel_witness :
  first_choice_content (answer_with "") = Some ""
  /\ fst (ask demo_client "What are neural networks?" None
              (stub (Responded (answer_with ""))))
     = Ok "No response received"
  /\ fst (askWithContext demo_client "What are neural networks?"
                         (Some learning_ai) None
                         (stub (Responded (answer_with ""))))
     = Ok "No response received".
Proof.
  pose proof (falsy_content_gives_sentinel demo_client
                "What are neural networks?" (Some learning_ai) None
                (stub (Responded (answer_with ""))) (answer_with "")
                (or_intror eq_refl)) as [Hask Hctx].
  split; [reflexivity | split].
  - eapply Hask; [vm_compute; reflexivity | reflexivity].
  - eapply Hctx; [vm_compute; reflexivity | reflexivity].
Defined.

(** Whatever array the merged options hold under [messages] is what
    [askWithContext] posts, in one request. *)
Lemma askWithContext_request this (question : string)
    (context : option (list Message)) (options : option object) w
    (sent : list Message) :
  get (spread {["messages" :=
                  JArr (default [] context ++ [mkMessage "user" question])]}
              (default ∅ options)) "messages" = JArr sent ->
  exists r, posts (askWithContext this question context options) w [r]
            /\ request_messages r = Some (JArr sent).
Proof.
  intros Hsent. rewrite askWithContext_unfold.
  eexists. split.
  - pose proof (complete_and_extract_posts this
                  (spread {["messages" :=
                     JArr (default [] context ++ [mkMessage "user" question])]}
                     (default ∅ options))
                  "No response received" w) as Hposts.
    rewrite Hsent in Hposts. exact Hposts.
  - rewrite completion_request_messages. now rewrite Hsent.
Qed.

Lemma posts_unique {A} (m : M A) w (rs1 rs2 : list HttpRequest) :
  posts m w rs1 -> posts m w rs2 -> rs1 = rs2.
Proof.
  unfold posts. intros H1 H2. rewrite H1 in H2. now apply app_inv_head in H2.
Qed.

(** C5, as amended: when the options carry no [messages] property of
    their own, [askWithContext] posts exactly one request, whose message
    list is the context followed by the question as one user turn. *)
Theorem askWithContext_appends_question this (question : string)
    (context : option (list Message)) (options : option object) w :
  default ∅ options !! "messages" = None ->
  appends_question this question context options w.
Proof.
  intros Hfree. apply askWithContext_request.
  rewrite get_spread, Hfree. unfold get. now rewrite lookup_singleton_eq.
Qed.

Lemma askWithContext_appends_question_witness :
  appends_question demo_client "What are neural networks?"
    (Some learning_ai) (Some {["temperature" := JNum (7 # 10)]})
    (stub (Responded (answer_with "Layers of weighted sums."))).
Proof.
  apply (askWithContext_appends_question demo_client
           "What are neural networks?" (Some learning_ai)
           (Some {["temperature" := JNum (7 # 10)]})).
  reflexivity.
Defined.

(** C5, as stated, fails: a [messages] property among the options
    replaces the list built from the context and the question. *)
Lemma askWithContext_options_replace_messages :
  ~ appends_question demo_client "What are neural networks?"
      (Some learning_ai) (Some {["messages" := JArr []]})
      (stub (Responded (answer_with "Layers of weighted sums."))).
Proof.
  intros (r & Hposts & Hmessages).
  destruct (askWithContext_request demo_client "What are neural networks?"
              (Some learning_ai) (Some {["messages" := JArr []]})
              (stub (Responded (answer_with "Layers of weighted sums.")))
              []) as (r' & Hposts' & Hmessages').
  { rewrite get_spread. simpl. now rewrite lookup_singleton_eq. }
  pose proof (posts_unique _ _ _ _ Hposts Hposts') as Hsame.
  injection Hsame as ->. rewrite Hmessages' in Hmessages. discriminate.
Qed.

(** An upstream failure crosses two [catch] blocks on its way out of
    [ask]: [chatCompletion] translates it, and [ask] translates the
    translation. *)
Example chatCompletion_unauthorized :
  fst (chatCompletion demo_client
         {["messages" := JArr learning_ai]} (stub (Failed unauthorized)))
  = Throw (Error "Perplexity API Error 401 (Unauthorized): Invalid API key").
Proof. vm_compute. reflexivity. Qed.

Example ask_unauthorized :
  fst (ask demo_client "What is the capital of France?" None
           (stub (Failed unauthorized)))
  = Throw (Error "Request Error: Perplexity API Error 401 (Unauthorized): Invalid API key").
Proof. vm_compute. reflexivity. Qed.

(** Options whose [messages] is not an array stop [ask] before any POST. *)
Example ask_rejected_messages :
  ask demo_client "What is the capital of France?"
      (Some {["messages" := JNull]}) (stub (Responded no_choices))
  = (Throw (Error "Request Error: Request Error: Messages array is required"),
     stub (Responded no_choices)).
Proof. vm_compute. reflexivity. Qed.

End Gateway.

(** ** The chat handler *)

Section ChatHandler.

Implicit Types (client : PerplexityClient) (w : World) (req_body : object)
         (messages : list Message) (r : HttpRequest).

(** [slice(0, -1)] drops the last element. *)
Lemma js_slice_init {A} (l : list A) :
  js_slice l 0 (-1) = take (length l - 1) l.
Proof.
  unfold js_slice. simpl.
  replace (Z.min 0 (Z.of_nat (length l))) with 0 by lia.
  simpl drop. f_equal. lia.
Qed.

Lemma length_js_slice_init {A} (l : list A) :
  length (js_slice l 0 (-1)) = (length l - 1)%nat.
Proof. rewrite js_slice_init, length_take. lia. Qed.

(** [messages[messages.length - 1]] is the last message. *)
Lemma lookup_last_index {A} (l : list A) : l !! (length l - 1)%nat = last l.
Proof. now rewrite last_lookup, Nat.sub_1_r. Qed.

Lemma last_defined {A} (l : list A) : (1 <= length l)%nat -> is_Some (last l).
Proof.
  intros Hlen. rewrite last_lookup. apply lookup_lt_is_Some_2. lia.
Qed.

Lemma summarizeConversation_unfold client messages :
  summarizeConversation client messages None
  = complete_and_extract client (summary_options messages)
                         "Unable to generate summary".
Proof. reflexivity. Qed.

Lemma summary_options_messages messages :
  get (summary_options messages) "messages"
  = JArr [mkMessage "user" (summaryPrompt (conversationText messages))].
Proof.
  unfold summary_options. rewrite get_spread, lookup_empty.
  unfold get. now rewrite lookup_insert_eq.
Qed.

(** Summarizing posts exactly one request: the summary prompt, as a
    single user turn. *)
Lemma summarizeConversation_posts client messages w :
  posts (summarizeConversation client messages None) w
        [completion_request client w (summary_options messages)].
Proof.
  rewrite summarizeConversation_unfold.
  pose proof (complete_and_extract_posts client (summary_options messages)
                "Unable to generate summary" w) as Hposts.
  now rewrite summary_options_messages in Hposts.
Qed.

Lemma chat_options_messages req_body (finalMessages : list Message) :
  get (chat_options req_body finalMessages) "messages" = JArr finalMessages.
Proof.
  unfold chat_options. rewrite get_spread, rest_without_lookup.
  rewrite decide_True by apply list_elem_of_here.
  unfold get. now rewrite lookup_insert_eq.
Qed.

(** The handler on a history that triggers summarization. *)
Lemma post_chat_summarizing client req_body messages w :
  req_body !! "messages" = Some (JArr messages) ->
  shouldSummarize messages None None = true ->
  (2 <= length messages)%nat ->
  post_chat (Some client) req_body w =
    match summarizeConversation client (js_slice messages 0 (-1)) None w with
    | (Throw error, w1) =>
        (Ok (ReplyError 500 "API Error" (err_message error)), w1)
    | (Ok summaryText, w1) =>
        let finalMessages :=
          summary_turn summaryText :: option_list (last messages) in
        match chatCompletion client (chat_options req_body finalMessages) w1 with
        | (Ok response, w2) =>
            (Ok (ReplyChat response true (Some summaryText) (length messages)
                           (length finalMessages) (now w2)), w2)
        | (Throw error, w2) =>
            (Ok (ReplyError 500 "API Error" (err_message error)), w2)
        end
    end.
Proof.
  intros Hbody Htrigger Hlen.
  assert (Hget : get req_body "messages" = JArr messages)
    by (unfold get; now rewrite Hbody).
  unfold post_chat, try_catch, mbind, M_bind, mret, M_ret, toISOString_now.
  cbn zeta. rewrite Hget.
  rewrite Htrigger, length_js_slice_init, lookup_last_index.
  destruct (Nat.ltb_spec 0 (length messages - 1)) as [_|Hshort]; [|lia].
  destruct (summarizeConversation client (js_slice messages 0 (-1)) None w)
    as [[summaryText|error] w1]; [|reflexivity].
  fold (summary_turn summaryText).
  fold (chat_options req_body (summary_turn summaryText :: option_list (last messages))).
  cbn zeta.
  destruct (chatCompletion client
              (chat_options req_body
                 (summary_turn summaryText :: option_list (last messages))) w1)
    as [[response|error] w2]; reflexivity.
Qed.

(** C2: when a history of two messages or more triggers summarization and
    the summary comes back, the handler completes with exactly two
    messages: a system turn holding [Previous conversation summary: ]
    followed by the summary, then the last message of the history as it
    was.  That request is the one POST that follows the summarization. *)
Theorem post_chat_compacted_conversation client req_body messages w
    (summaryText : string) (w1 : World) :
  req_body !! "messages" = Some (JArr messages) ->
  (2 <= length messages)%nat ->
  shouldSummarize messages None None = true ->
  summarizeConversation client (js_slice messages 0 (-1)) None w
  = (Ok summaryText, w1) ->
  exists r tail,
    last messages = Some tail
    /\ posted (snd (post_chat (Some client) req_body w)) = (posted w1 ++ [r])%list
    /\ request_messages r
       = Some (JArr [ mkMessage "system"
                        ("Previous conversation summary: " +:+ summaryText);
                      tail ]).
Proof.
  intros Hbody Hlen Htrigger Hsummary.
  rewrite (post_chat_summarizing client req_body messages w Hbody Htrigger Hlen).
  rewrite Hsummary.
  destruct (last_defined messages) as [tail Htail]; [lia |].
  rewrite Htail. change (option_list (Some tail)) with [tail].
  set (finalMessages := [summary_turn summaryText; tail]). cbn zeta.
  exists (completion_request client w1 (chat_options req_body finalMessages)), tail.
  split; [reflexivity | split].
  - destruct (chatCompletion_spec client (chat_options req_body finalMessages) w1)
      as [Harr|response Harr Hp|error msg Harr Hp He].
    + rewrite chat_options_messages in Harr. discriminate.
    + reflexivity.
    + reflexivity.
  - rewrite completion_request_messages, chat_options_messages. reflexivity.
Qed.

Lemma post_chat_compacted_conversation_witness :
  exists r tail,
    last long_history = Some tail
    /\ posted (snd (post_chat (Some demo_client) long_chat_body
                      (stub (Responded (answer_with "They talked about AI.")))))
       = (posted (after_post (stub (Responded (answer_with "They talked about AI.")))
                    (completion_request demo_client
                       (stub (Responded (answer_with "They talked about AI.")))
                       (summary_options (js_slice long_history 0 (-1)))))
            ++ [r])%list
    /\ request_messages r
       = Some (JArr [ mkMessage "system"
                        "Previous conversation summary: They talked about AI.";
                      tail ]).
Proof.
  apply (post_chat_compacted_conversation demo_client long_chat_body long_history
           (stub (Responded (answer_with "They talked about AI.")))
           "They talked about AI.").
  - reflexivity.
  - simpl. lia.
  - vm_compute. reflexivity.
  - vm_compute. reflexivity.
Defined.

(** C7: when the history triggers summarization and the summarization
    call fails, the handler answers 500 with the message of that error,
    and the summarization request is the only POST it has made: no
    completion is requested, neither for the compacted nor for the
    original history. *)
Theorem post_chat_summary_failure client req_body messages w
    (error : JsError) (w1 : World) :
  req_body !! "messages" = Some (JArr messages) ->
  (2 <= length messages)%nat ->
  shouldSummarize messages None None = true ->
  summarizeConversation client (js_slice messages 0 (-1)) None w
  = (Throw error, w1) ->
  post_chat (Some client) req_body w
  = (Ok (ReplyError 500 "API Error" (err_message error)), w1)
  /\ exists r,
      posts (post_chat (Some client) req_body) w [r]
      /\ request_messages r
         = Some (JArr [ mkMessage "user"
                          (summaryPrompt
                             (conversationText (js_slice messages 0 (-1)))) ])
      /\ request_messages r <> Some (JArr messages).
Proof.
  intros Hbody Hlen Htrigger Hfailure.
  assert (Hrun : post_chat (Some client) req_body w
                 = (Ok (ReplyError 500 "API Error" (err_message error)), w1)).
  { rewrite (post_chat_summarizing client req_body messages w Hbody Htrigger Hlen).
    now rewrite Hfailure. }
  split; [exact Hrun |].
  exists (completion_request client w (summary_options (js_slice messages 0 (-1)))).
  assert (Hprompt :
            request_messages
              (completion_request client w
                 (summary_options (js_slice messages 0 (-1))))
            = Some (JArr [ mkMessage "user"
                             (summaryPrompt
                                (conversationText (js_slice messages 0 (-1)))) ]))
    by now rewrite completion_request_messages, summary_options_messages.
  split; [|split].
  - pose proof (summarizeConversation_posts client
                  (js_slice messages 0 (-1)) w) as Hposts.
    unfold posts in *. rewrite Hrun. rewrite Hfailure in Hposts. exact Hposts.
  - exact Hprompt.
  - rewrite Hprompt. intros Hsame. injection Hsame as Hsame.
    rewrite <- Hsame in Hlen. simpl in Hlen. lia.
Qed.

Lemma post_chat_summary_failure_witness :
  fst (post_chat (Some demo_client) long_chat_body (stub (Failed unauthorized)))
  = Ok (ReplyError 500 "API Error"
          "Request Error: Perplexity API Error 401 (Unauthorized): Invalid API key")
  /\ length (posted (snd (post_chat (Some demo_client) long_chat_body
                            (stub (Failed unauthorized))))) = 1%nat.
Proof.
  destruct (post_chat_summary_failure demo_client long_chat_body long_history
              (stub (Failed unauthorized))
              (Error "Request Error: Perplexity API Error 401 (Unauthorized): Invalid API key")
              (after_post (stub (Failed unauthorized))
                 (completion_request demo_client (stub (Failed unauthorized))
                    (summary_options (js_slice long_history 0 (-1))))))
    as (Hrun & r & Hposts & _).
  - reflexivity.
  - simpl. lia.
  - vm_compute. reflexivity.
  - vm_compute. reflexivity.
  - rewrite Hrun. split; [reflexivity |].
    unfold posts in Hposts. rewrite Hrun in Hposts. rewrite Hposts. reflexivity.
Defined.

(** Without summarization the history goes out as it came. *)
Example post_chat_short_history :
  request_messages
    <$> posted (snd (post_chat (Some demo_client)
                       {["messages" := JArr learning_ai]}
                       (stub (Responded (answer_with "Layers of weighted sums.")))))
  = [Some (JArr learning_ai)].
Proof. vm_compute. reflexivity. Qed.

End ChatHandler.

(** ** More on the summarization predicate *)

Section PolicyOrderAndThresholds.

Implicit Types (c : list Message) (maxMessages maxTokenEstimate : option Z).

Lemma total_content_length_perm c c' :
  c ≡ₚ c' -> total_content_length c = total_content_length c'.
Proof.
  unfold total_content_length.
  induction 1 as [|m c c' _ IH|m1 m2 c|c1 c2 c3 _ IH1 _ IH2]; simpl; lia.
Qed.

Lemma bool_eq_of_true_iff (b1 b2 : bool) : (b1 = true <-> b2 = true) -> b1 = b2.
Proof. destruct b1, b2; intuition congruence. Qed.

(** X1: The predicate does not look at the order of the messages. *)
Theorem shouldSummarize_order_independent c c' maxMessages maxTokenEstimate :
  c ≡ₚ c' ->
  shouldSummarize c maxMessages maxTokenEstimate
  = shouldSummarize c' maxMessages maxTokenEstimate.
Proof.
  intros Hperm. apply bool_eq_of_true_iff.
  rewrite !shouldSummarize_true_iff.
  now rewrite (Permutation_length Hperm), (total_content_length_perm _ _ Hperm).
Qed.

Lemma shouldSummarize_order_independent_witness :
  shouldSummarize learning_ai None None
  = shouldSummarize (reverse learning_ai) None None.
Proof.
  apply (shouldSummarize_order_independent learning_ai (reverse learning_ai)).
  symmetry. apply reverse_Permutation.
Defined.

(** X2: Lowering a threshold never turns a [true] answer into [false]. *)
Theorem shouldSummarize_lower_thresholds c
    (maxMessages maxTokenEstimate maxMessages' maxTokenEstimate' : option Z) :
  default 20 maxMessages' <= default 20 maxMessages ->
  default 3000 maxTokenEstimate' <= default 3000 maxTokenEstimate ->
  shouldSummarize c maxMessages maxTokenEstimate = true ->
  shouldSummarize c maxMessages' maxTokenEstimate' = true.
Proof.
  rewrite !shouldSummarize_true_iff. lia.
Qed.

Lemma shouldSummarize_lower_thresholds_witness :
  shouldSummarize at_boundary (Some 10) (Some 2000) = true.
Proof.
  apply (shouldSummarize_lower_thresholds at_boundary None None (Some 10) (Some 2000));
    vm_compute; (reflexivity || discriminate).
Defined.

(** X3: An empty conversation triggers summarization only under a threshold
    that is zero or negative; never at the defaults. *)
Theorem shouldSummarize_empty maxMessages maxTokenEstimate :
  shouldSummarize [] maxMessages maxTokenEstimate = true
  <-> default 20 maxMessages <= 0 \/ default 3000 maxTokenEstimate <= 0.
Proof.
  rewrite shouldSummarize_true_iff. simpl. lia.
Qed.

Lemma shouldSummarize_empty_witness :
  shouldSummarize [] (Some 0) None = true.
Proof.
  apply (shouldSummarize_empty (Some 0) None). left. simpl. lia.
Defined.

End PolicyOrderAndThresholds.

(** ** Splitting the history and flattening the prefix *)

Section HistorySplit.

Implicit Types (messages : list Message) (m : Message).

(** X4: The prefix to summarize and the current message, as [POST /chat] takes
    them, are the whole history, in order: nothing is lost or repeated. *)
Theorem history_split_is_lossless messages :
  (js_slice messages 0 (-1)
   ++ option_list (messages !! (length messages - 1)%nat))%list
  = messages.
Proof.
  rewrite js_slice_init, lookup_last_index.
  destruct messages as [|tail prefix _] using rev_ind; [reflexivity |].
  rewrite last_snoc, length_app. simpl length.
  replace (length prefix + 1 - 1)%nat with (length prefix) by lia.
  now rewrite take_app_length.
Qed.

Lemma contains_self (s : string) : contains s s.
Proof. exists "", "". now rewrite append_empty_r. Qed.

Lemma contains_begin (part after : string) : contains part (part +:+ after).
Proof. now exists "", after. Qed.

Lemma js_join_contains (sep : string) (items : list string) (x : string) :
  In x items -> contains x (js_join sep items).
Proof.
  induction items as [|y items IH]; intros Hin; [destruct Hin |].
  destruct items as [|z items].
  - destruct Hin as [->|[]]. apply contains_self.
  - change (js_join sep (y :: z :: items))
      with (y +:+ sep +:+ js_join sep (z :: items)).
    destruct Hin as [->|Hin]; [apply contains_begin |].
    do 2 apply contains_after. now apply IH.
Qed.

(** X5: Every message of the conversation is in the prompt that asks for its
    summary, as the line [role: content]. *)
Theorem summaryPrompt_mentions_every_message messages m :
  In m messages ->
  contains (role m +:+ ": " +:+ content m)
           (summaryPrompt (conversationText messages)).
Proof.
  intros Hin. unfold summaryPrompt.
  do 3 apply contains_after.
  destruct (js_join_contains LF
              (map (fun msg => role msg +:+ ": " +:+ content msg) messages)
              (role m +:+ ": " +:+ content m)) as (before & after & Heq).
  { now apply (in_map (fun msg => role msg +:+ ": " +:+ content msg)). }
  unfold conversationText. rewrite Heq.
  exists before, (after +:+ LF +:+ LF +:+ "Summary:").
  now rewrite !append_assoc.
Qed.

Lemma summaryPrompt_mentions_every_message_witness :
  contains "assistant: I'd be happy to help!"
           (summaryPrompt (conversationText learning_ai)).
Proof.
  apply (summaryPrompt_mentions_every_message learning_ai
           (mkMessage "assistant" "I'd be happy to help!")).
  right. left. reflexivity.
Defined.

End HistorySplit.

(** ** More on the gateway *)

Section GatewayRequests.

Implicit Types (this : PerplexityClient) (w : World) (options : object)
         (r : HttpRequest) (p : Payload).

Lemma handleError_world_independent A (error : JsError) w w' :
  fst (@handleError A error w) = fst (@handleError A error w').
Proof.
  unfold handleError.
  destruct (err_response error); [|destruct (err_request error)]; reflexivity.
Qed.

(** X6: Without an array under [messages], [chatCompletion] throws before any
    POST; its own [catch] has already rewritten the message. *)
Theorem chatCompletion_rejects_non_array this options w :
  isArray (get options "messages") = false ->
  chatCompletion this options w
  = (Throw (Error "Request Error: Messages array is required"), w).
Proof.
  intros Hnot.
  destruct (chatCompletion_spec this options w) as [Harr|p Harr Hp|e msg Harr Hp He];
    [reflexivity | congruence | congruence].
Qed.

Lemma chatCompletion_rejects_non_array_witness :
  chatCompletion demo_client {["messages" := JStr "hello"]}
                 (stub (Responded no_choices))
  = (Throw (Error "Request Error: Messages array is required"),
     stub (Responded no_choices)).
Proof.
  apply (chatCompletion_rejects_non_array demo_client
           {["messages" := JStr "hello"]}).
  reflexivity.
Defined.

Lemma chatCompletion_array_run this options w :
  isArray (get options "messages") = true ->
  posts (chatCompletion this options) w [completion_request this w options]
  /\ (forall payload,
        provider w (posted w) (completion_request this w options)
        = Responded payload ->
        fst (chatCompletion this options w) = Ok payload)
  /\ (forall error,
        provider w (posted w) (completion_request this w options)
        = Failed error ->
        fst (chatCompletion this options w) = fst (@handleError Payload error w)).
Proof.
  intros His. split; [|split].
  - pose proof (chatCompletion_posts this options w) as Hposts.
    now rewrite His in Hposts.
  - intros payload Hanswer.
    destruct (chatCompletion_spec this options w) as [Harr|p Harr Hp|e msg Harr Hp He];
      [congruence | | congruence].
    rewrite Hanswer in Hp. now injection Hp as ->.
  - intros error Hfail.
    destruct (chatCompletion_spec this options w) as [Harr|p Harr Hp|e msg Harr Hp He];
      [congruence | congruence |].
    rewrite Hfail in Hp. injection Hp as <-.
    rewrite (handleError_world_independent Payload error w
               (after_post w (completion_request this w options))).
    now rewrite He.
Qed.

(** X7: With an array under [messages], [chatCompletion] posts exactly one
    request, whatever the provider answers: the payload comes back as it
    is, a failure comes back translated once by [handleError], and nothing
    is tried again. *)
Theorem chatCompletion_posts_exactly_once this options w :
  isArray (get options "messages") = true ->
  posts (chatCompletion this options) w [completion_request this w options]
  /\ (forall payload,
        provider w (posted w) (completion_request this w options)
        = Responded payload ->
        fst (chatCompletion this options w) = Ok payload)
  /\ (forall error,
        provider w (posted w) (completion_request this w options)
        = Failed error ->
        fst (chatCompletion this options w) = fst (@handleError Payload error w)).
Proof. apply chatCompletion_array_run. Qed.

Lemma chatCompletion_posts_exactly_once_witness :
  length (posted (snd (chatCompletion demo_client
                         {["messages" := JArr learning_ai]}
                         (stub (Failed offline))))) = 1%nat
  /\ fst (chatCompletion demo_client {["messages" := JArr learning_ai]}
                         (stub (Failed offline)))
     = Throw (Error "No response from Perplexity API. Check your internet connection.").
Proof.
  destruct (chatCompletion_posts_exactly_once demo_client
              {["messages" := JArr learning_ai]} (stub (Failed offline)))
    as (Hposts & _ & Hfail); [reflexivity |].
  split.
  - unfold posts in Hposts. rewrite Hposts. reflexivity.
  - rewrite (Hfail offline); reflexivity.
Defined.

(** The keys that [chatCompletion] takes out of its options. *)
Lemma requestData_lookup (env : option string) options (k : string) :
  requestData env options !! k =
    if decide (k = "model") then
      Some (get_or options "model" (JStr (or_else env "sonar")))
    else if decide (k = "messages") then Some (get options "messages")
    else if decide (k = "max_tokens") then
      Some (get_or options "max_tokens" (JNum 1000))
    else if decide (k = "temperature") then
      Some (get_or options "temperature" (JNum (2 # 10)))
    else if decide (k = "stream") then
      Some (get_or options "stream" (JBool false))
    else options !! k.
Proof.
  unfold requestData, spread. rewrite lookup_union, rest_without_lookup.
  destruct (decide (k = "model")) as [->|Hmodel].
  { now rewrite lookup_insert_eq. }
  rewrite lookup_insert_ne by congruence.
  destruct (decide (k = "messages")) as [->|Hmessages].
  { now rewrite lookup_insert_eq. }
  rewrite lookup_insert_ne by congruence.
  destruct (decide (k = "max_tokens")) as [->|Hmax].
  { now rewrite lookup_insert_eq. }
  rewrite lookup_insert_ne by congruence.
  destruct (decide (k = "temperature")) as [->|Htemperature].
  { now rewrite lookup_insert_eq. }
  rewrite lookup_insert_ne by congruence.
  destruct (decide (k = "stream")) as [->|Hstream].
  { now rewrite lookup_singleton_eq. }
  rewrite lookup_singleton_ne by congruence.
  rewrite decide_False.
  - now destruct (options !! k).
  - rewrite !elem_of_cons, elem_of_nil. tauto.
Qed.

Lemma get_or_defined options (k : string) (d v : jsval) :
  options !! k = Some v -> v <> JUndefined -> get_or options k d = v.
Proof.
  intros Hk Hv. unfold get_or, get. rewrite Hk. simpl. now destruct v.
Qed.

Lemma get_or_undefined options (k : string) (d : jsval) :
  get options k = JUndefined -> get_or options k d = d.
Proof. intros Hk. unfold get_or. now rewrite Hk. Qed.

Lemma requestData_caller_value (env : option string) options
    (k : string) (v : jsval) :
  options !! k = Some v -> v <> JUndefined ->
  requestData env options !! k = Some v.
Proof.
  intros Hk Hv. rewrite requestData_lookup.
  repeat case_decide; subst;
    try (now rewrite (get_or_defined _ _ _ v Hk Hv)).
  - unfold get. now rewrite Hk.
  - exact Hk.
Qed.

(** X8: Every option that the caller sets to something other than [undefined]
    reaches the provider as it is, whatever its name: [null] is not replaced
    by a default, and unknown options are passed through. *)
Theorem requestData_keeps_caller_values (env : option string) options
    (k : string) (v : jsval) :
  options !! k = Some v -> v <> JUndefined ->
  requestData env options !! k = Some v.
Proof. apply requestData_caller_value. Qed.

Lemma requestData_keeps_caller_values_witness :
  requestData None (<["model" := JNull]> {["search_recency_filter" := JStr "week"]})
    !! "model" = Some JNull
  /\ requestData None (<["model" := JNull]> {["search_recency_filter" := JStr "week"]})
       !! "search_recency_filter" = Some (JStr "week").
Proof.
  split.
  - apply (requestData_keeps_caller_values None
             (<["model" := JNull]> {["search_recency_filter" := JStr "week"]})
             "model" JNull); [reflexivity | discriminate].
  - apply (requestData_keeps_caller_values None
             (<["model" := JNull]> {["search_recency_filter" := JStr "week"]})
             "search_recency_filter" (JStr "week")); [reflexivity | discriminate].
Defined.

(** X9: An option among [model], [max_tokens], [temperature] and [stream] that
    is missing or [undefined] is sent with its default: the default model
    of the environment or [sonar], 1000, 0.2 and [false]. *)
Theorem requestData_defaults (env : option string) options :
  (get options "model" = JUndefined ->
   requestData env options !! "model" = Some (JStr (or_else env "sonar")))
  /\ (get options "max_tokens" = JUndefined ->
      requestData env options !! "max_tokens" = Some (JNum 1000))
  /\ (get options "temperature" = JUndefined ->
      requestData env options !! "temperature" = Some (JNum (2 # 10)))
  /\ (get options "stream" = JUndefined ->
      requestData env options !! "stream" = Some (JBool false)).
Proof.
  repeat split; intros Hmissing; rewrite requestData_lookup; simpl;
    now rewrite get_or_undefined.
Qed.

Lemma requestData_defaults_witness :
  requestData (Some "sonar-pro") {["messages" := JArr learning_ai]} !! "model"
  = Some (JStr "sonar-pro")
  /\ requestData None (<["max_tokens" := JUndefined]> {["messages" := JArr learning_ai]})
       !! "max_tokens" = Some (JNum 1000).
Proof.
  split.
  - apply (requestData_defaults (Some "sonar-pro") {["messages" := JArr learning_ai]}).
    reflexivity.
  - apply (requestData_defaults None
             (<["max_tokens" := JUndefined]> {["messages" := JArr learning_ai]})).
    reflexivity.
Defined.

Lemma summarizeConversation_unfold_options this (messages : list Message)
    (options : option object) :
  summarizeConversation this messages options
  = complete_and_extract this
      (spread (<["messages" :=
                  JArr [mkMessage "user" (summaryPrompt (conversationText messages))]]>
               {["max_tokens" := JNum 500]})
              (default ∅ options))
      "Unable to generate summary".
Proof. reflexivity. Qed.

(** What leaves [complete_and_extract] as an error has crossed two [catch]
    blocks. *)
Lemma complete_and_extract_throws this options (sentinel : string) w
    (e : JsError) :
  fst (complete_and_extract this options sentinel w) = Throw e ->
  exists msg,
    fst (chatCompletion this options w) = Throw (Error msg)
    /\ e = Error ("Request Error: " +:+ msg).
Proof.
  rewrite complete_and_extract_run.
  destruct (chatCompletion_spec this options w) as [Harr|p Harr Hp|e' msg Harr Hp He];
    simpl; intros Hthrow; try discriminate.
  - injection Hthrow as <-. eauto.
  - injection Hthrow as <-. eauto.
Qed.

(** X10: [ask], [askWithContext] and [summarizeConversation] never throw an
    error that carries a provider response or an upstream or connectivity
    message of its own: whatever went wrong arrives as a plain error whose
    message starts with [Request Error: ]. *)
Theorem convenience_methods_throw_request_errors this (question : string)
    (context : option (list Message)) (messages : list Message)
    (options : option object) w (e : JsError) :
  fst (ask this question options w) = Throw e
  \/ fst (askWithContext this question context options w) = Throw e
  \/ fst (summarizeConversation this messages options w) = Throw e ->
  exists msg, e = Error ("Request Error: " +:+ msg).
Proof.
  rewrite ask_unfold, askWithContext_unfold, summarizeConversation_unfold_options.
  intros [H|[H|H]];
    destruct (complete_and_extract_throws _ _ _ _ _ H) as (msg & _ & ->); eauto.
Qed.

Lemma convenience_methods_throw_request_errors_witness :
  exists msg,
    Error "Request Error: No response from Perplexity API. Check your internet connection."
    = Error ("Request Error: " +:+ msg).
Proof.
  apply (convenience_methods_throw_request_errors demo_client
           "What is the capital of France?" None learning_ai None
           (stub (Failed offline))).
  left. vm_compute. reflexivity.
Defined.

Lemma complete_and_extract_failed this options (sentinel : string) w r
    (error : JsError) :
  posts (complete_and_extract this options sentinel) w [r] ->
  provider w (posted w) r = Failed error ->
  exists msg,
    fst (@handleError Payload error w) = Throw (Error msg)
    /\ fst (complete_and_extract this options sentinel w)
       = Throw (Error ("Request Error: " +:+ msg)).
Proof.
  intros Hposts Hfail.
  pose proof (complete_and_extract_posts this options sentinel w) as Hlog.
  pose proof (posts_unique _ _ _ _ Hposts Hlog) as Hsame.
  destruct (isArray (get options "messages")) eqn:His; [|discriminate].
  injection Hsame as ->.
  destruct (chatCompletion_array_run this options w His)
    as (_ & _ & Hthrown).
  specialize (Hthrown error Hfail).
  destruct (handleError_throws Payload error w) as (msg & Hmsg).
  exists msg. split; [now rewrite Hmsg |].
  rewrite complete_and_extract_run.
  rewrite Hmsg in Hthrown. simpl in Hthrown.
  destruct (chatCompletion this options w) as [[p|e] w']; simpl in *;
    [discriminate |].
  injection Hthrown as ->. reflexivity.
Qed.

(** X11: A failure of the provider reaches the caller of [ask] or
    [askWithContext] translated twice: the message that [handleError] makes
    of it, behind [Request Error: ]. *)
Theorem provider_failure_is_translated_twice this (question : string)
    (context : option (list Message)) (options : option object) w
    (error : JsError) :
  exists msg,
    fst (@handleError Payload error w) = Throw (Error msg)
    /\ (forall r,
          posts (ask this question options) w [r] ->
          provider w (posted w) r = Failed error ->
          fst (ask this question options w)
          = Throw (Error ("Request Error: " +:+ msg)))
    /\ (forall r,
          posts (askWithContext this question context options) w [r] ->
          provider w (posted w) r = Failed error ->
          fst (askWithContext this question context options w)
          = Throw (Error ("Request Error: " +:+ msg))).
Proof.
  destruct (handleError_throws Payload error w) as (msg & Hmsg).
  exists msg. split; [now rewrite Hmsg |].
  split; intros r Hposts Hfail.
  - rewrite ask_unfold in *.
    destruct (complete_and_extract_failed _ _ _ _ r error Hposts Hfail)
      as (msg' & Hmsg' & ->).
    rewrite Hmsg in Hmsg'. simpl in Hmsg'. now injection Hmsg' as ->.
  - rewrite askWithContext_unfold in *.
    destruct (complete_and_extract_failed _ _ _ _ r error Hposts Hfail)
      as (msg' & Hmsg' & ->).
    rewrite Hmsg in Hmsg'. simpl in Hmsg'. now injection Hmsg' as ->.
Qed.

Lemma provider_failure_is_translated_twice_witness :
  fst (ask demo_client "What is the capital of France?" None
           (stub (Failed unauthorized)))
  = Throw (Error "Request Error: Perplexity API Error 401 (Unauthorized): Invalid API key").
Proof.
  destruct (provider_failure_is_translated_twice demo_client
              "What is the capital of France?" None None
              (stub (Failed unauthorized)) unauthorized)
    as (msg & Hmsg & Hask & _).
  injection Hmsg as <-.
  apply (Hask (completion_request demo_client (stub (Failed unauthorized))
                 {["messages" :=
                     JArr [mkMessage "user" "What is the capital of France?"]]})).
  - vm_compute. reflexivity.
  - reflexivity.
Defined.

(** X12: A non-empty first content comes back from [ask] and [askWithContext]
    as it is. *)
Theorem ask_returns_first_content this (question : string)
    (context : option (list Message)) (options : option object) w p
    (text : string) :
  first_choice_content p = Some text -> text <> "" ->
  (forall r,
      posts (ask this question options) w [r] ->
      provider w (posted w) r = Responded p ->
      fst (ask this question options w) = Ok text)
  /\ (forall r,
        posts (askWithContext this question context options) w [r] ->
        provider w (posted w) r = Responded p ->
        fst (askWithContext this question context options w) = Ok text).
Proof.
  intros Hcontent Hnonempty.
  assert (Hkept : forall sentinel,
             or_else (first_choice_content p) sentinel = text).
  { intros sentinel. rewrite Hcontent. simpl.
    apply String.eqb_neq in Hnonempty. now rewrite Hnonempty. }
  split; intros r Hposts Hanswer.
  - rewrite ask_unfold in *.
    rewrite (complete_and_extract_answered _ _ _ _ r p Hposts Hanswer).
    now rewrite Hkept.
  - rewrite askWithContext_unfold in *.
    rewrite (complete_and_extract_answered _ _ _ _ r p Hposts Hanswer).
    now rewrite Hkept.
Qed.

Lemma ask_returns_first_content_witness :
  fst (askWithContext demo_client "What are neural networks?"
                      (Some learning_ai) None
                      (stub (Responded (answer_with "Layers of weighted sums."))))
  = Ok "Layers of weighted sums.".
Proof.
  destruct (ask_returns_first_content demo_client "What are neural networks?"
              (Some learning_ai) None
              (stub (Responded (answer_with "Layers of weighted sums.")))
              (answer_with "Layers of weighted sums.")
              "Layers of weighted sums." eq_refl)
    as (_ & Hctx); [discriminate |].
  eapply Hctx; [vm_compute; reflexivity | reflexivity].
Defined.

(** X13: [ask], [askWithContext] and [summarizeConversation] post one request
    at most, whatever their options and whatever the provider does. *)
Theorem convenience_methods_post_at_most_once this (question : string)
    (context : option (list Message)) (messages : list Message)
    (options : option object) w :
  (exists rs, posts (ask this question options) w rs /\ (length rs <= 1)%nat)
  /\ (exists rs, posts (askWithContext this question context options) w rs
                 /\ (length rs <= 1)%nat)
  /\ (exists rs, posts (summarizeConversation this messages options) w rs
                 /\ (length rs <= 1)%nat).
Proof.
  rewrite ask_unfold, askWithContext_unfold, summarizeConversation_unfold_options.
  repeat split;
    (eexists; split; [apply complete_and_extract_posts |]);
    match goal with |- context [isArray ?v] => destruct (isArray v) end;
    simpl; lia.
Qed.

(** X14: Unless the options bring a [messages] of their own,
    [summarizeConversation] posts one request whose only message is the
    summary prompt as a user turn; its [max_tokens] is 500 when the options
    leave it out, and the caller's value when they set one. *)
Theorem summarizeConversation_request this (messages : list Message)
    (options : option object) w :
  default ∅ options !! "messages" = None ->
  exists r,
    posts (summarizeConversation this messages options) w [r]
    /\ request_messages r
       = Some (JArr [mkMessage "user" (summaryPrompt (conversationText messages))])
    /\ (default ∅ options !! "max_tokens" = None ->
        body r !! "max_tokens" = Some (JNum 500))
    /\ (forall v, default ∅ options !! "max_tokens" = Some v ->
                  v <> JUndefined -> body r !! "max_tokens" = Some v).
Proof.
  intros Hfree. rewrite summarizeConversation_unfold_options.
  set (merged := spread _ (default ∅ options)).
  assert (Hmessages :
            get merged "messages"
            = JArr [mkMessage "user" (summaryPrompt (conversationText messages))]).
  { unfold merged. rewrite get_spread, Hfree. unfold get.
    now rewrite lookup_insert_eq. }
  exists (completion_request this w merged).
  split; [|split; [|split]].
  - pose proof (complete_and_extract_posts this merged
                  "Unable to generate summary" w) as Hposts.
    now rewrite Hmessages in Hposts.
  - now rewrite completion_request_messages, Hmessages.
  - intros Hnone. simpl. apply requestData_caller_value; [|discriminate].
    unfold merged, spread. rewrite lookup_union_r by exact Hnone.
    rewrite lookup_insert_ne by discriminate. apply lookup_singleton_eq.
  - intros v Hsome Hdefined. simpl.
    apply requestData_caller_value; [|exact Hdefined].
    unfold merged, spread. now apply lookup_union_Some_l.
Qed.

Lemma summarizeConversation_request_witness :
  exists r,
    posts (summarizeConversation demo_client learning_ai
             (Some {["max_tokens" := JNum 200]}))
          (stub (Responded (answer_with "They talked about AI."))) [r]
    /\ body r !! "max_tokens" = Some (JNum 200).
Proof.
  destruct (summarizeConversation_request demo_client learning_ai
              (Some {["max_tokens" := JNum 200]})
              (stub (Responded (answer_with "They talked about AI."))))
    as (r & Hposts & _ & _ & Hcaller); [reflexivity |].
  exists r. split; [exact Hposts |].
  apply (Hcaller (JNum 200)); [reflexivity | discriminate].
Defined.

(** X15: When the first content of the provider's answer is falsy,
    [summarizeConversation] returns [Unable to generate summary] as if it
    were a summary. *)
Theorem summarizeConversation_sentinel this (messages : list Message)
    (options : option object) w r p :
  posts (summarizeConversation this messages options) w [r] ->
  provider w (posted w) r = Responded p ->
  falsy_content (first_choice_content p) ->
  fst (summarizeConversation this messages options w)
  = Ok "Unable to generate summary".
Proof.
  intros Hposts Hanswer Hfalsy.
  rewrite summarizeConversation_unfold_options in *.
  rewrite (complete_and_extract_answered _ _ _ _ r p Hposts Hanswer).
  now destruct Hfalsy as [-> | ->].
Qed.

Lemma summarizeConversation_sentinel_witness :
  fst (summarizeConversation demo_client learning_ai None
         (stub (Responded no_choices)))
  = Ok "Unable to generate summary".
Proof.
  apply (summarizeConversation_sentinel demo_client learning_ai None
           (stub (Responded no_choices))
           (completion_request demo_client (stub (Responded no_choices))
              (summary_options learning_ai))
           no_choices).
  - vm_compute. reflexivity.
  - reflexivity.
  - left. reflexivity.
Defined.

End GatewayRequests.

(** ** More on the chat handler *)

Section ChatHandlerPaths.

Implicit Types (client : PerplexityClient) (w : World) (req_body : object)
         (messages : list Message) (r : HttpRequest).

(** The handler on a history that is sent as it is. *)
Lemma post_chat_plain client req_body messages w :
  req_body !! "messages" = Some (JArr messages) ->
  shouldSummarize messages None None = false \/ (length messages <= 1)%nat ->
  post_chat (Some client) req_body w =
    match chatCompletion client (chat_options req_body messages) w with
    | (Ok response, w2) =>
        (Ok (ReplyChat response false None (length messages) (length messages)
                       (now w2)), w2)
    | (Throw error, w2) =>
        (Ok (ReplyError 500 "API Error" (err_message error)), w2)
    end.
Proof.
  intros Hbody Hplain.
  assert (Hget : get req_body "messages" = JArr messages)
    by (unfold get; now rewrite Hbody).
  unfold post_chat, try_catch, mbind, M_bind, mret, M_ret, toISOString_now.
  cbn zeta. rewrite Hget.
  assert (Hstate :
            (if shouldSummarize messages None None
             then
               if (0 <? length (js_slice messages 0 (-1)))%nat
               then true else false
             else false) = false).
  { destruct Hplain as [-> | Hshort]; [reflexivity |].
    rewrite length_js_slice_init.
    destruct (Nat.ltb_spec 0 (length messages - 1)); [lia |].
    now destruct (shouldSummarize messages None None). }
  fold (chat_options req_body messages).
  destruct (shouldSummarize messages None None).
  - destruct (0 <? length (js_slice messages 0 (-1)))%nat; [discriminate |].
    fold (chat_options req_body messages).
    destruct (chatCompletion client (chat_options req_body messages) w)
      as [[response|error] w2]; reflexivity.
  - fold (chat_options req_body messages).
    destruct (chatCompletion client (chat_options req_body messages) w)
      as [[response|error] w2]; reflexivity.
Qed.

(** X16: A history that falls under both thresholds, and a history of a single
    message however long, goes to the provider as it came, in the one
    request the handler makes; the answer is reported as not summarized,
    with equal message counts. *)
Theorem post_chat_sends_history_unchanged client req_body messages w :
  req_body !! "messages" = Some (JArr messages) ->
  shouldSummarize messages None None = false \/ (length messages <= 1)%nat ->
  exists r,
    posts (post_chat (Some client) req_body) w [r]
    /\ request_messages r = Some (JArr messages)
    /\ (forall response,
          provider w (posted w) r = Responded response ->
          fst (post_chat (Some client) req_body w)
          = Ok (ReplyChat response false None (length messages)
                          (length messages) (now w))).
Proof.
  intros Hbody Hplain.
  exists (completion_request client w (chat_options req_body messages)).
  unfold posts.
  rewrite (post_chat_plain client req_body messages w Hbody Hplain).
  destruct (chatCompletion_array_run client
              (chat_options req_body messages) w)
    as (Hposts & Hok & _).
  { now rewrite chat_options_messages. }
  unfold posts in Hposts.
  split; [|split].
  - destruct (chatCompletion client (chat_options req_body messages) w)
      as [[response|error] w2]; exact Hposts.
  - now rewrite completion_request_messages, chat_options_messages.
  - intros response Hanswer. specialize (Hok response Hanswer).
    destruct (chatCompletion_spec client (chat_options req_body messages) w)
      as [Harr|p Harr Hp|e msg Harr Hp He]; simpl in *; try discriminate.
    injection Hok as ->. reflexivity.
Qed.

Lemma post_chat_sends_history_unchanged_witness :
  exists r,
    posts (post_chat (Some demo_client)
             {["messages" := JArr [mkMessage "user" (js_repeat "a" (130 * 100))]]})
          (stub (Responded (answer_with "A long row of a."))) [r]
    /\ request_messages r
       = Some (JArr [mkMessage "user" (js_repeat "a" (130 * 100))]).
Proof.
  destruct (post_chat_sends_history_unchanged demo_client
              {["messages" := JArr [mkMessage "user" (js_repeat "a" (130 * 100))]]}
              [mkMessage "user" (js_repeat "a" (130 * 100))]
              (stub (Responded (answer_with "A long row of a."))))
    as (r & Hposts & Hmessages & _).
  - reflexivity.
  - right. simpl. lia.
  - exists r. split; assumption.
Defined.

(** X17: When the completion itself fails, the handler answers 500 with the
    message that [handleError] makes of the failure, translated once. *)
Theorem post_chat_completion_failure client req_body messages w
    (error : JsError) :
  req_body !! "messages" = Some (JArr messages) ->
  shouldSummarize messages None None = false \/ (length messages <= 1)%nat ->
  provider w (posted w) (completion_request client w (chat_options req_body messages))
  = Failed error ->
  exists msg,
    fst (@handleError Payload error w) = Throw (Error msg)
    /\ fst (post_chat (Some client) req_body w)
       = Ok (ReplyError 500 "API Error" msg).
Proof.
  intros Hbody Hplain Hfail.
  rewrite (post_chat_plain client req_body messages w Hbody Hplain).
  destruct (chatCompletion_array_run client
              (chat_options req_body messages) w)
    as (_ & _ & Hthrown).
  { now rewrite chat_options_messages. }
  specialize (Hthrown error Hfail).
  destruct (handleError_throws Payload error w) as (msg & Hmsg).
  exists msg. rewrite Hmsg in *. split; [reflexivity |].
  destruct (chatCompletion client (chat_options req_body messages) w)
    as [[response|e] w2]; simpl in *; [discriminate |].
  injection Hthrown as ->. reflexivity.
Qed.

Lemma post_chat_completion_failure_witness :
  fst (post_chat (Some demo_client) {["messages" := JArr learning_ai]}
                 (stub (Failed unauthorized)))
  = Ok (ReplyError 500 "API Error"
          "Perplexity API Error 401 (Unauthorized): Invalid API key").
Proof.
  destruct (post_chat_completion_failure demo_client
              {["messages" := JArr learning_ai]} learning_ai
              (stub (Failed unauthorized)) unauthorized)
    as (msg & Hmsg & Hreply).
  - reflexivity.
  - left. vm_compute. reflexivity.
  - reflexivity.
  - injection Hmsg as <-. exact Hreply.
Defined.

Lemma post_chat_refuses_without_post_aux client req_body w :
  isArray (get req_body "messages") = false ->
  post_chat (Some client) req_body w
  = (Ok (ReplyError 400 "Missing required field"
           "Please provide a messages array in the request body"), w).
Proof.
  intros Hnot. unfold post_chat, try_catch. cbn zeta.
  destruct (get req_body "messages"); try reflexivity. discriminate.
Qed.

(** X18: A body without an array under [messages], and a server whose client was
    never initialised, are answered without any POST: 400 and 500. *)
Theorem post_chat_refuses_without_post req_body w :
  post_chat None req_body w
  = (Ok (ReplyError 500 "Perplexity client not initialized"
                    "Please check your API key configuration"), w)
  /\ (forall client,
        isArray (get req_body "messages") = false ->
        post_chat (Some client) req_body w
        = (Ok (ReplyError 400 "Missing required field"
                 "Please provide a messages array in the request body"), w)).
Proof.
  split; [reflexivity |].
  intros client Hnot. now apply post_chat_refuses_without_post_aux.
Qed.

Lemma post_chat_refuses_without_post_witness :
  post_chat (Some demo_client) {["question" := JStr "What is AI?"]}
            (stub (Responded no_choices))
  = (Ok (ReplyError 400 "Missing required field"
           "Please provide a messages array in the request body"),
     stub (Responded no_choices)).
Proof.
  apply (post_chat_refuses_without_post {["question" := JStr "What is AI?"]}
           (stub (Responded no_choices))).
  reflexivity.
Defined.

Lemma summarizeConversation_answered client messages w p :
  provider w (posted w) (completion_request client w (summary_options messages))
  = Responded p ->
  summarizeConversation client messages None w
  = (Ok (or_else (first_choice_content p) "Unable to generate summary"),
     after_post w (completion_request client w (summary_options messages))).
Proof.
  intros Hanswer. rewrite summarizeConversation_unfold, complete_and_extract_run.
  destruct (chatCompletion_spec client (summary_options messages) w)
    as [Harr|p' Harr Hp|e msg Harr Hp He].
  - rewrite summary_options_messages in Harr. discriminate.
  - rewrite Hanswer in Hp. now injection Hp as ->.
  - congruence.
Qed.

(** The handler once the summary has come back. *)
Lemma post_chat_after_summary client req_body messages w
    (summaryText : string) (w1 : World) :
  req_body !! "messages" = Some (JArr messages) ->
  (2 <= length messages)%nat ->
  shouldSummarize messages None None = true ->
  summarizeConversation client (js_slice messages 0 (-1)) None w
  = (Ok summaryText, w1) ->
  exists tail,
    last messages = Some tail
    /\ posted (snd (post_chat (Some client) req_body w))
       = (posted w1
          ++ [completion_request client w1
                (chat_options req_body [summary_turn summaryText; tail])])%list
    /\ (forall response,
          provider w1 (posted w1)
            (completion_request client w1
               (chat_options req_body [summary_turn summaryText; tail]))
          = Responded response ->
          fst (post_chat (Some client) req_body w)
          = Ok (ReplyChat response true (Some summaryText) (length messages) 2
                          (now w1))).
Proof.
  intros Hbody Hlen Htrigger Hsummary.
  rewrite (post_chat_summarizing client req_body messages w Hbody Htrigger Hlen).
  rewrite Hsummary.
  destruct (last_defined messages) as [tail Htail]; [lia |].
  exists tail. split; [exact Htail |].
  rewrite Htail. change (option_list (Some tail)) with [tail].
  set (finalMessages := [summary_turn summaryText; tail]). cbn zeta.
  destruct (chatCompletion_spec client (chat_options req_body finalMessages) w1)
    as [Harr|response Harr Hp|error msg Harr Hp He].
  - rewrite chat_options_messages in Harr. discriminate.
  - split; [reflexivity |]. intros response' Hanswer.
    rewrite Hanswer in Hp. now injection Hp as ->.
  - split; [reflexivity |]. intros response' Hanswer. congruence.
Qed.

(** X19: After a summarization the answer reports it: [summarized] is set, the
    summary is returned, the original count is that of the history and the
    final count is 2. *)
Theorem post_chat_reports_summarization client req_body messages w
    (summaryText : string) (w1 : World) r (response : Payload) :
  req_body !! "messages" = Some (JArr messages) ->
  (2 <= length messages)%nat ->
  shouldSummarize messages None None = true ->
  summarizeConversation client (js_slice messages 0 (-1)) None w
  = (Ok summaryText, w1) ->
  posted (snd (post_chat (Some client) req_body w)) = (posted w1 ++ [r])%list ->
  provider w1 (posted w1) r = Responded response ->
  fst (post_chat (Some client) req_body w)
  = Ok (ReplyChat response true (Some summaryText) (length messages) 2 (now w1)).
Proof.
  intros Hbody Hlen Htrigger Hsummary Hposted Hanswer.
  destruct (post_chat_after_summary client req_body messages w summaryText w1
              Hbody Hlen Htrigger Hsummary) as (tail & _ & Hlog & Hreply).
  rewrite Hposted in Hlog. apply app_inv_head in Hlog. injection Hlog as ->.
  now apply Hreply.
Qed.

Lemma post_chat_reports_summarization_witness :
  fst (post_chat (Some demo_client) long_chat_body
                 (stub (Responded (answer_with "They talked about AI."))))
  = Ok (ReplyChat (answer_with "They talked about AI.") true
                  (Some "They talked about AI.") 22 2
                  "2025-08-22T10:30:00.000Z").
Proof.
  apply (post_chat_reports_summarization demo_client long_chat_body long_history
           (stub (Responded (answer_with "They talked about AI.")))
           "They talked about AI."
           (after_post (stub (Responded (answer_with "They talked about AI.")))
              (completion_request demo_client
                 (stub (Responded (answer_with "They talked about AI.")))
                 (summary_options (js_slice long_history 0 (-1)))))
           (completion_request demo_client
              (stub (Responded (answer_with "They talked about AI.")))
              (chat_options long_chat_body
                 [summary_turn "They talked about AI.";
                  mkMessage "user" "What are neural networks?"]))).
  - reflexivity.
  - simpl. lia.
  - vm_compute. reflexivity.
  - vm_compute. reflexivity.
  - vm_compute. reflexivity.
  - reflexivity.
Defined.

(** X20: A summary that the provider left empty is not noticed: the handler
    compacts the history all the same, and the completion is asked with
    [Unable to generate summary] standing for the prefix. *)
Theorem post_chat_compacts_on_empty_summary client req_body messages w
    (p : Payload) :
  req_body !! "messages" = Some (JArr messages) ->
  (2 <= length messages)%nat ->
  shouldSummarize messages None None = true ->
  provider w (posted w)
    (completion_request client w (summary_options (js_slice messages 0 (-1))))
  = Responded p ->
  falsy_content (first_choice_content p) ->
  exists r tail,
    last messages = Some tail
    /\ posts (post_chat (Some client) req_body) w
         [completion_request client w (summary_options (js_slice messages 0 (-1)));
          r]
    /\ request_messages r
       = Some (JArr [ mkMessage "system"
                        "Previous conversation summary: Unable to generate summary";
                      tail ]).
Proof.
  intros Hbody Hlen Htrigger Hanswer Hfalsy.
  pose proof (summarizeConversation_answered client
                (js_slice messages 0 (-1)) w p Hanswer) as Hsummary.
  assert (Hsentinel :
            or_else (first_choice_content p) "Unable to generate summary"
            = "Unable to generate summary")
    by (destruct Hfalsy as [-> | ->]; reflexivity).
  rewrite Hsentinel in Hsummary.
  destruct (post_chat_after_summary client req_body messages w _ _
              Hbody Hlen Htrigger Hsummary) as (tail & Htail & Hlog & _).
  eexists _, tail. split; [exact Htail | split].
  - unfold posts. rewrite Hlog. cbn [posted after_post].
    now rewrite <- app_assoc.
  - rewrite completion_request_messages, chat_options_messages. reflexivity.
Qed.

Lemma post_chat_compacts_on_empty_summary_witness :
  exists r tail,
    last long_history = Some tail
    /\ posts (post_chat (Some demo_client) long_chat_body)
         (stub (Responded no_choices))
         [completion_request demo_client (stub (Responded no_choices))
            (summary_options (js_slice long_history 0 (-1)));
          r]
    /\ request_messages r
       = Some (JArr [ mkMessage "system"
                        "Previous conversation summary: Unable to generate summary";
                      tail ]).
Proof.
  apply (post_chat_compacts_on_empty_summary demo_client long_chat_body
           long_history (stub (Responded no_choices)) no_choices).
  - reflexivity.
  - simpl. lia.
  - vm_compute. reflexivity.
  - reflexivity.
  - left. reflexivity.
Defined.

Lemma get_array_lookup req_body messages :
  get req_body "messages" = JArr messages ->
  req_body !! "messages" = Some (JArr messages).
Proof.
  unfold get. destruct (req_body !! "messages") as [v|]; simpl;
    [now intros -> | discriminate].
Qed.

(** X21: Whatever the body and whatever the provider does, the handler answers
    (no error leaves it) and has posted two requests at most: the summary
    prompt, if any, and one completion. *)
Theorem post_chat_always_replies (perplexityClient : option PerplexityClient)
    req_body w :
  exists reply rs,
    fst (post_chat perplexityClient req_body w) = Ok reply
    /\ posts (post_chat perplexityClient req_body) w rs
    /\ (length rs <= 2)%nat.
Proof.
  destruct perplexityClient as [client|];
    [|eexists _, []; unfold posts; simpl; rewrite app_nil_r; repeat split; lia].
  destruct (isArray (get req_body "messages")) eqn:His.
  - destruct (get req_body "messages") as [| | | | |messages|] eqn:Hget;
      try discriminate.
    apply get_array_lookup in Hget.
    destruct (shouldSummarize messages None None) eqn:Htrigger;
      [destruct (le_lt_dec 2 (length messages)) as [Hlen|Hshort] |].
    + unfold posts.
      rewrite (post_chat_summarizing client req_body messages w Hget Htrigger Hlen).
      pose proof (summarizeConversation_posts client
                    (js_slice messages 0 (-1)) w) as Hsum.
      unfold posts in Hsum.
      destruct (summarizeConversation client (js_slice messages 0 (-1)) None w)
        as [[summaryText|error] w1]; simpl in Hsum.
      * cbn zeta.
        pose proof (chatCompletion_posts client
                      (chat_options req_body
                         (summary_turn summaryText :: option_list (last messages)))
                      w1) as Hchat.
        unfold posts in Hchat. rewrite chat_options_messages in Hchat.
        simpl in Hchat.
        destruct (chatCompletion client _ w1) as [[response|error] w2];
          simpl in *; eexists _, [_; _];
          (split; [reflexivity |]);
          (split; [rewrite Hchat, Hsum, <- app_assoc; reflexivity | simpl; lia]).
      * eexists _, [_]. split; [reflexivity |].
        split; [exact Hsum | simpl; lia].
    + unfold posts.
      rewrite (post_chat_plain client req_body messages w Hget) by (right; lia).
      pose proof (chatCompletion_posts client (chat_options req_body messages) w)
        as Hchat.
      unfold posts in Hchat. rewrite chat_options_messages in Hchat.
      destruct (chatCompletion client _ w) as [[response|error] w2];
        simpl in *; eexists _, [_];
        (split; [reflexivity |]); (split; [exact Hchat | simpl; lia]).
    + unfold posts.
      rewrite (post_chat_plain client req_body messages w Hget) by (now left).
      pose proof (chatCompletion_posts client (chat_options req_body messages) w)
        as Hchat.
      unfold posts in Hchat. rewrite chat_options_messages in Hchat.
      destruct (chatCompletion client _ w) as [[response|error] w2];
        simpl in *; eexists _, [_];
        (split; [reflexivity |]); (split; [exact Hchat | simpl; lia]).
  - pose proof (post_chat_refuses_without_post_aux client req_body w His)
      as Hrefused.
    eexists _, []. unfold posts. rewrite Hrefused. simpl. rewrite app_nil_r.
    repeat split. lia.
Qed.

End ChatHandlerPaths.

(** ** The simulated stream *)

Section SimulatedStream.

Implicit Types (s word : string) (words : list string).

Lemma word_chunks_cons word words :
  word_chunks (word :: words) = word :: map (String.append " ") words.
Proof.
  unfold word_chunks. rewrite imap_cons. simpl. f_equal.
  induction words as [|x words IH] using rev_ind; [reflexivity |].
  rewrite imap_app, map_app, IH. reflexivity.
Qed.

Lemma js_split_nonempty (sep : ascii) s : js_split sep s <> [].
Proof.
  destruct s as [|c rest]; simpl; [discriminate |].
  destruct (Ascii.eqb c sep); [discriminate |].
  destruct (js_split sep rest); discriminate.
Qed.

(** Gluing the words back with the separator gives the string. *)
Lemma js_split_glue (sep : ascii) s :
  match js_split sep s with
  | word :: words =>
      word +:+ foldr String.append "" (map (String.append (String sep "")) words)
  | [] => ""
  end = s.
Proof.
  induction s as [|c rest IH]; [reflexivity |].
  pose proof (js_split_nonempty sep rest) as Hsome.
  simpl js_split. destruct (Ascii.eqb_spec c sep) as [->|Hne];
    destruct (js_split sep rest) as [|word words]; try contradiction.
  - transitivity
      (String sep
         (word +:+ foldr String.append ""
                     (map (String.append (String sep "")) words)));
      [reflexivity | now rewrite IH].
  - rewrite append_cons. now rewrite IH.
Qed.

Lemma js_split_no_separator (sep : ascii) s word :
  In word (js_split sep s) -> ~ In sep (list_ascii_of_string word).
Proof.
  revert word. induction s as [|c rest IH]; intros word.
  - simpl. intros [<-|[]]. simpl. tauto.
  - simpl js_split. destruct (Ascii.eqb_spec c sep) as [->|Hne].
    + intros [<-|Hin]; [simpl; tauto | now apply IH].
    + destruct (js_split sep rest) as [|first others].
      * intros [<-|[]]. simpl. intros [?|[]]. congruence.
      * intros [<-|Hin].
        -- simpl. intros [?|Hin]; [congruence |].
           now apply (IH first (or_introl eq_refl)).
        -- apply IH. now right.
Qed.

Lemma word_chunks_glue s :
  word_chunks (js_split " " s) <> []
  /\ foldr String.append "" (word_chunks (js_split " " s)) = s.
Proof.
  pose proof (js_split_glue " " s) as Hglue.
  pose proof (js_split_nonempty " " s) as Hsome.
  destruct (js_split " " s) as [|word words]; [contradiction |].
  rewrite word_chunks_cons. split; [discriminate | exact Hglue].
Qed.

(** X22: Splitting a text at its spaces and sending the first word, then each
    other word behind a space, as the simulated stream does: there is at
    least one chunk, no word holds a space, and the chunks put end to end
    are the text again. *)
Theorem word_chunks_reassemble s :
  js_split " " s <> []
  /\ (forall word, In word (js_split " " s) ->
                   ~ In " "%char (list_ascii_of_string word))
  /\ foldr String.append "" (word_chunks (js_split " " s)) = s.
Proof.
  split; [apply js_split_nonempty | split; [apply js_split_no_separator |]].
  pose proof (js_split_glue " " s) as Hglue.
  destruct (js_split " " s) as [|word words]; [exact Hglue |].
  now rewrite word_chunks_cons.
Qed.

Lemma word_chunks_reassemble_witness :
  ~ In " "%char (list_ascii_of_string "capital")
  /\ foldr String.append "" (word_chunks (js_split " " "Paris is the  capital "))
     = "Paris is the  capital ".
Proof.
  destruct (word_chunks_reassemble "Paris is the  capital ") as (_ & Hwords & Hglue).
  split; [|exact Hglue].
  apply Hwords. vm_compute. tauto.
Defined.

End SimulatedStream.

(** ** The other handlers *)

Section OtherHandlers.

Implicit Types (client : PerplexityClient) (w : World) (options req_body : object)
         (question : string) (r : HttpRequest) (p : Payload).

Lemma or_else_present question : question <> "" -> or_else (Some question) "" = question.
Proof.
  intros Hq. simpl. apply String.eqb_neq in Hq. now rewrite Hq.
Qed.

(** [POST /ask] with a question. *)
Lemma post_ask_run client question options w :
  question <> "" ->
  post_ask (Some client) (Some question) options w =
    match ask client question (Some options) w with
    | (Ok answer, w') => (Ok (AskAnswer question answer (now w')), w')
    | (Throw error, w') => (Ok (AskError 500 "API Error" (err_message error)), w')
    end.
Proof.
  intros Hq. unfold post_ask. rewrite (or_else_present question Hq).
  apply String.eqb_neq in Hq. rewrite Hq.
  unfold try_catch, mbind, M_bind, mret, M_ret, toISOString_now.
  now destruct (ask client question (Some options) w) as [[answer|error] w'].
Qed.

Lemma post_ask_posts client question options w (rs : list HttpRequest) :
  question <> "" ->
  posts (ask client question (Some options)) w rs ->
  posts (post_ask (Some client) (Some question) options) w rs.
Proof.
  intros Hq. unfold posts. rewrite (post_ask_run client question options w Hq).
  now destruct (ask client question (Some options) w) as [[answer|error] w'].
Qed.

(** X23: [POST /ask] sends the question as the only user turn, unless the body
    brings a [messages] array of its own: then that array is what the
    provider receives, and the question is not sent at all. *)
Theorem post_ask_request_messages client question options w :
  question <> "" ->
  (options !! "messages" = None ->
   exists r,
     posts (post_ask (Some client) (Some question) options) w [r]
     /\ request_messages r = Some (JArr [mkMessage "user" question]))
  /\ (forall messages,
        options !! "messages" = Some (JArr messages) ->
        exists r,
          posts (post_ask (Some client) (Some question) options) w [r]
          /\ request_messages r = Some (JArr messages)).
Proof.
  intros Hq.
  set (merged := spread {["messages" := JArr [mkMessage "user" question]]} options).
  assert (Hmerged : get merged "messages"
                    = match options !! "messages" with
                      | Some v => v
                      | None => JArr [mkMessage "user" question]
                      end).
  { unfold merged. rewrite get_spread. unfold get.
    now rewrite lookup_singleton_eq. }
  assert (Hsent : forall messages,
             get merged "messages" = JArr messages ->
             exists r,
               posts (post_ask (Some client) (Some question) options) w [r]
               /\ request_messages r = Some (JArr messages)).
  { intros messages Harray.
    exists (completion_request client w merged). split.
    - apply post_ask_posts; [exact Hq |].
      rewrite ask_unfold. fold merged.
      pose proof (complete_and_extract_posts client merged
                    "No response received" w) as Hposts.
      now rewrite Harray in Hposts.
    - now rewrite completion_request_messages, Harray. }
  split.
  - intros Hnone. apply Hsent. now rewrite Hmerged, Hnone.
  - intros messages Hsome. apply Hsent. now rewrite Hmerged, Hsome.
Qed.

Lemma post_ask_request_messages_witness :
  exists r,
    posts (post_ask (Some demo_client) (Some "What is AI?")
             {["messages" := JArr learning_ai]})
          (stub (Responded (answer_with "Layers of weighted sums."))) [r]
    /\ request_messages r = Some (JArr learning_ai).
Proof.
  destruct (post_ask_request_messages demo_client "What is AI?"
              {["messages" := JArr learning_ai]}
              (stub (Responded (answer_with "Layers of weighted sums."))))
    as (_ & Hbody); [discriminate |].
  apply Hbody. reflexivity.
Defined.

(** X24: What [POST /ask] answers: the question with the provider's text when
    it is not empty; and, when the provider fails, 500 with the failure
    translated twice. *)
Theorem post_ask_reply client question options w r :
  question <> "" ->
  posts (post_ask (Some client) (Some question) options) w [r] ->
  (forall p text,
      provider w (posted w) r = Responded p ->
      first_choice_content p = Some text -> text <> "" ->
      fst (post_ask (Some client) (Some question) options w)
      = Ok (AskAnswer question text (now w)))
  /\ (forall error,
        provider w (posted w) r = Failed error ->
        exists msg,
          fst (@handleError Payload error w) = Throw (Error msg)
          /\ fst (post_ask (Some client) (Some question) options w)
             = Ok (AskError 500 "API Error" ("Request Error: " +:+ msg))).
Proof.
  intros Hq Hposts.
  assert (Hask : posts (ask client question (Some options)) w [r]).
  { unfold posts in *. rewrite (post_ask_run client question options w Hq) in Hposts.
    now destruct (ask client question (Some options) w) as [[answer|error] w']. }
  rewrite ask_unfold in Hask.
  set (merged := spread {["messages" := JArr [mkMessage "user" question]]}
                        (default ∅ (Some options))) in *.
  split.
  - intros p text Hanswer Hcontent Htext.
    rewrite (post_ask_run client question options w Hq), ask_unfold.
    fold merged.
    pose proof (complete_and_extract_answered _ _ _ _ r p Hask Hanswer) as Hok.
    pose proof (complete_and_extract_posts client merged
                  "No response received" w) as Hlog.
    pose proof (posts_unique _ _ _ _ Hask Hlog) as Hsame.
    rewrite complete_and_extract_run in *.
    destruct (chatCompletion_spec client merged w)
      as [Harr|p' Harr Hp|e msg Harr Hp He]; simpl in *.
    + rewrite Harr in Hsame. discriminate.
    + injection Hok as ->. rewrite Hcontent. simpl.
      apply String.eqb_neq in Htext. now rewrite Htext.
    + discriminate.
  - intros error Hfail.
    destruct (complete_and_extract_failed _ _ _ _ r error Hask Hfail)
      as (msg & Hmsg & Hthrow).
    exists msg. split; [exact Hmsg |].
    rewrite (post_ask_run client question options w Hq), ask_unfold.
    fold merged.
    destruct (complete_and_extract client merged "No response received" w)
      as [[answer|e] w']; simpl in *; [discriminate |].
    now injection Hthrow as ->.
Qed.

Lemma post_ask_reply_witness :
  fst (post_ask (Some demo_client) (Some "What is the capital of France?") ∅
                (stub (Responded (answer_with "Paris"))))
  = Ok (AskAnswer "What is the capital of France?" "Paris"
                  "2025-08-22T10:30:00.000Z")
  /\ fst (post_ask (Some demo_client) (Some "What is the capital of France?") ∅
                   (stub (Failed offline)))
     = Ok (AskError 500 "API Error"
             "Request Error: No response from Perplexity API. Check your internet connection.").
Proof.
  split.
  - destruct (post_ask_reply demo_client "What is the capital of France?" ∅
                (stub (Responded (answer_with "Paris")))
                (completion_request demo_client
                   (stub (Responded (answer_with "Paris")))
                   {["messages" :=
                       JArr [mkMessage "user" "What is the capital of France?"]]}))
      as (Hanswer & _); [discriminate | vm_compute; reflexivity |].
    apply (Hanswer (answer_with "Paris") "Paris");
      [reflexivity | reflexivity | discriminate].
  - destruct (post_ask_reply demo_client "What is the capital of France?" ∅
                (stub (Failed offline))
                (completion_request demo_client (stub (Failed offline))
                   {["messages" :=
                       JArr [mkMessage "user" "What is the capital of France?"]]}))
      as (_ & Hfailure); [discriminate | vm_compute; reflexivity |].
    destruct (Hfailure offline eq_refl) as (msg & Hmsg & Hreply).
    injection Hmsg as <-. exact Hreply.
Defined.

Lemma chatCompletion_single_post client options w r :
  posts (chatCompletion client options) w [r] ->
  isArray (get options "messages") = true
  /\ r = completion_request client w options.
Proof.
  intros Hposts.
  pose proof (posts_unique _ _ _ _ Hposts (chatCompletion_posts client options w))
    as Hsame.
  destruct (isArray (get options "messages")); [|discriminate].
  now injection Hsame as ->.
Qed.

(** [POST /ask-stream] with a question. *)
Lemma post_ask_stream_run client question options w :
  question <> "" ->
  post_ask_stream (Some client) (Some question) options w =
    match chatCompletion client
            (spread (<["messages" := JArr [mkMessage "user" question]]>
                     {["stream" := JBool true]})
                    options) w with
    | (Ok streamResponse, w') =>
        (Ok (AskStreamEvents
               (map SseDelta
                    (word_chunks
                       (js_split " "
                          (or_else (first_choice_content streamResponse)
                                   "No response received")))
                ++ [SseDone])%list), w')
    | (Throw streamError, w') =>
        (Ok (AskStreamEvents [SseError (err_message streamError)]), w')
    end.
Proof.
  intros Hq. unfold post_ask_stream. rewrite (or_else_present question Hq).
  apply String.eqb_neq in Hq. rewrite Hq.
  unfold try_catch, mbind, M_bind, mret, M_ret.
  now destruct (chatCompletion client _ w) as [[streamResponse|streamError] w'].
Qed.

Lemma post_ask_stream_single_post client question options w r :
  question <> "" ->
  posts (post_ask_stream (Some client) (Some question) options) w [r] ->
  isArray (get (spread (<["messages" := JArr [mkMessage "user" question]]>
                        {["stream" := JBool true]})
                       options) "messages") = true
  /\ r = completion_request client w
           (spread (<["messages" := JArr [mkMessage "user" question]]>
                    {["stream" := JBool true]})
                   options).
Proof.
  intros Hq Hposts. apply chatCompletion_single_post.
  unfold posts in *.
  rewrite (post_ask_stream_run client question options w Hq) in Hposts.
  now destruct (chatCompletion client _ w) as [[streamResponse|streamError] w'].
Qed.

(** X25: When the provider answers, [POST /ask-stream] writes at least one
    content event and then [DONE]; the contents of the events, put end to
    end, are the answer (or the sentinel, if the answer has no content). *)
Theorem post_ask_stream_reassembles client question options w r p :
  question <> "" ->
  posts (post_ask_stream (Some client) (Some question) options) w [r] ->
  provider w (posted w) r = Responded p ->
  exists chunks,
    fst (post_ask_stream (Some client) (Some question) options w)
    = Ok (AskStreamEvents (map SseDelta chunks ++ [SseDone])%list)
    /\ chunks <> []
    /\ foldr String.append "" chunks
       = or_else (first_choice_content p) "No response received".
Proof.
  intros Hq Hposts Hanswer.
  destruct (post_ask_stream_single_post client question options w r Hq Hposts)
    as (His & ->).
  destruct (chatCompletion_array_run client _ w His) as (_ & Hok & _).
  specialize (Hok p Hanswer).
  rewrite (post_ask_stream_run client question options w Hq).
  destruct (chatCompletion client _ w) as [[streamResponse|streamError] w'];
    simpl in Hok; [|discriminate].
  injection Hok as ->.
  destruct (word_chunks_glue (or_else (first_choice_content p) "No response received"))
    as (Hsome & Hglue).
  eexists. split; [reflexivity | split; assumption].
Qed.

Lemma post_ask_stream_reassembles_witness :
  fst (post_ask_stream (Some demo_client) (Some "What is the capital of France?")
         ∅ (stub (Responded (answer_with "Paris is the capital"))))
  = Ok (AskStreamEvents [SseDelta "Paris"; SseDelta " is"; SseDelta " the";
                         SseDelta " capital"; SseDone]).
Proof.
  destruct (post_ask_stream_reassembles demo_client
              "What is the capital of France?" ∅
              (stub (Responded (answer_with "Paris is the capital")))
              (completion_request demo_client
                 (stub (Responded (answer_with "Paris is the capital")))
                 (<["messages" :=
                      JArr [mkMessage "user" "What is the capital of France?"]]>
                  {["stream" := JBool true]}))
              (answer_with "Paris is the capital"))
    as (chunks & Hreply & _ & _);
    [discriminate | vm_compute; reflexivity | reflexivity |].
  vm_compute. reflexivity.
Defined.

(** X26: When the provider fails, [POST /ask-stream] still answers with the
    event stream: one error event holding the failure translated once, and
    no [DONE]. *)
Theorem post_ask_stream_failure client question options w r (error : JsError) :
  question <> "" ->
  posts (post_ask_stream (Some client) (Some question) options) w [r] ->
  provider w (posted w) r = Failed error ->
  exists msg,
    fst (@handleError Payload error w) = Throw (Error msg)
    /\ fst (post_ask_stream (Some client) (Some question) options w)
       = Ok (AskStreamEvents [SseError msg]).
Proof.
  intros Hq Hposts Hfail.
  destruct (post_ask_stream_single_post client question options w r Hq Hposts)
    as (His & ->).
  destruct (chatCompletion_array_run client _ w His) as (_ & _ & Hthrown).
  specialize (Hthrown error Hfail).
  destruct (handleError_throws Payload error w) as (msg & Hmsg).
  exists msg. rewrite Hmsg in *. split; [reflexivity |].
  rewrite (post_ask_stream_run client question options w Hq).
  destruct (chatCompletion client _ w) as [[streamResponse|streamError] w'];
    simpl in *; [discriminate |].
  now injection Hthrown as ->.
Qed.

Lemma post_ask_stream_failure_witness :
  fst (post_ask_stream (Some demo_client) (Some "What is the capital of France?")
         ∅ (stub (Failed unauthorized)))
  = Ok (AskStreamEvents
          [SseError "Perplexity API Error 401 (Unauthorized): Invalid API key"]).
Proof.
  destruct (post_ask_stream_failure demo_client
              "What is the capital of France?" ∅ (stub (Failed unauthorized))
              (completion_request demo_client (stub (Failed unauthorized))
                 (<["messages" :=
                      JArr [mkMessage "user" "What is the capital of France?"]]>
                  {["stream" := JBool true]}))
              unauthorized)
    as (msg & Hmsg & Hreply);
    [discriminate | vm_compute; reflexivity | reflexivity |].
  injection Hmsg as <-. exact Hreply.
Defined.

(** X27: [POST /summarize] asks for a summary of whatever array it is given,
    the empty one included, in one request holding the prompt; it answers
    with the summary (or the sentinel) and the number of messages, and with
    500 and the failure translated twice when the provider fails. *)
Theorem post_summarize_reply client req_body (messages : list Message) w :
  req_body !! "messages" = Some (JArr messages) ->
  posts (post_summarize (Some client) req_body) w
        [completion_request client w (summary_options messages)]
  /\ (forall p,
        provider w (posted w) (completion_request client w (summary_options messages))
        = Responded p ->
        fst (post_summarize (Some client) req_body w)
        = Ok (SummarizeDone
                (or_else (first_choice_content p) "Unable to generate summary")
                (length messages) (now w)))
  /\ (forall error,
        provider w (posted w) (completion_request client w (summary_options messages))
        = Failed error ->
        exists msg,
          fst (@handleError Payload error w) = Throw (Error msg)
          /\ fst (post_summarize (Some client) req_body w)
             = Ok (SummarizeError 500 "API Error" ("Request Error: " +:+ msg))).
Proof.
  intros Hbody.
  assert (Hget : get req_body "messages" = JArr messages)
    by (unfold get; now rewrite Hbody).
  assert (Hrun :
            post_summarize (Some client) req_body w =
              match summarizeConversation client messages None w with
              | (Ok summary, w') =>
                  (Ok (SummarizeDone summary (length messages) (now w')), w')
              | (Throw error, w') =>
                  (Ok (SummarizeError 500 "API Error" (err_message error)), w')
              end).
  { unfold post_summarize, try_catch, mbind, M_bind, mret, M_ret, toISOString_now.
    rewrite Hget.
    now destruct (summarizeConversation client messages None w)
      as [[summary|error] w']. }
  pose proof (summarizeConversation_posts client messages w) as Hposts.
  split; [|split].
  - unfold posts in *. rewrite Hrun.
    now destruct (summarizeConversation client messages None w)
      as [[summary|error] w'].
  - intros p Hanswer. rewrite Hrun.
    now rewrite (summarizeConversation_answered client messages w p Hanswer).
  - intros error Hfail. rewrite Hrun.
    rewrite summarizeConversation_unfold in *.
    destruct (complete_and_extract_failed _ _ _ _ _ error Hposts Hfail)
      as (msg & Hmsg & Hthrow).
    exists msg. split; [exact Hmsg |].
    destruct (complete_and_extract client (summary_options messages)
                "Unable to generate summary" w)
      as [[summary|e] w']; simpl in *; [discriminate |].
    now injection Hthrow as ->.
Qed.

Lemma post_summarize_reply_witness :
  fst (post_summarize (Some demo_client) {["messages" := JArr []]}
                      (stub (Responded no_choices)))
  = Ok (SummarizeDone "Unable to generate summary" 0 "2025-08-22T10:30:00.000Z")
  /\ length (posted (snd (post_summarize (Some demo_client)
                            {["messages" := JArr []]}
                            (stub (Responded no_choices))))) = 1%nat.
Proof.
  destruct (post_summarize_reply demo_client {["messages" := JArr []]} []
              (stub (Responded no_choices)))
    as (Hposts & Hanswer & _); [reflexivity |].
  split.
  - apply (Hanswer no_choices). reflexivity.
  - unfold posts in Hposts. rewrite Hposts. reflexivity.
Defined.

(** X28: A missing or empty question, and a body without an array under
    [messages], are answered 400 before anything is sent; a server without
    client answers 500 to all three routes. *)
Theorem handlers_refuse_without_post (question : option string) options
    req_body w :
  (forall client,
      or_else question "" = "" ->
      post_ask (Some client) question options w
      = (Ok (AskError 400 "Missing required field"
               "Please provide a question in the request body"), w)
      /\ post_ask_stream (Some client) question options w
         = (Ok (AskStreamError 400 "Missing required field"
                  "Please provide a question in the request body"), w))
  /\ (forall client,
        isArray (get req_body "messages") = false ->
        post_summarize (Some client) req_body w
        = (Ok (SummarizeError 400 "Missing required field"
                 "Please provide a messages array in the request body"), w))
  /\ post_ask None question options w
     = (Ok (AskError 500 "Perplexity client not initialized"
              "Please check your API key configuration"), w)
  /\ post_ask_stream None question options w
     = (Ok (AskStreamError 500 "Perplexity client not initialized"
              "Please check your API key configuration"), w)
  /\ post_summarize None req_body w
     = (Ok (SummarizeError 500 "Perplexity client not initialized"
              "Please check your API key configuration"), w).
Proof.
  split; [|split; [|repeat split]].
  - intros client Hnone. unfold post_ask, post_ask_stream, try_catch.
    rewrite Hnone. split; reflexivity.
  - intros client Hnot. unfold post_summarize, try_catch.
    destruct (get req_body "messages"); try reflexivity. discriminate.
Qed.

Lemma handlers_refuse_without_post_witness :
  post_ask (Some demo_client) (Some "") {["model" := JStr "sonar"]}
           (stub (Responded no_choices))
  = (Ok (AskError 400 "Missing required field"
           "Please provide a question in the request body"),
     stub (Responded no_choices))
  /\ post_summarize (Some demo_client) {["messages" := JStr "hello"]}
                    (stub (Responded no_choices))
     = (Ok (SummarizeError 400 "Missing required field"
              "Please provide a messages array in the request body"),
        stub (Responded no_choices)).
Proof.
  destruct (handlers_refuse_without_post (Some "") {["model" := JStr "sonar"]}
              {["messages" := JStr "hello"]} (stub (Responded no_choices)))
    as (Hquestion & Hmessages & _).
  split.
  - apply (Hquestion demo_client). reflexivity.
  - apply (Hmessages demo_client). reflexivity.
Defined.

End OtherHandlers.

(** ** Keys *)

Section Keys.

Implicit Types (this client : PerplexityClient) (key : option string).

Lemma length_getApiKey this :
  apiKey this <> "" ->
  String.length (getApiKey this) = String.length (apiKey this).
Proof.
  intros Hkey. unfold getApiKey. apply String.eqb_neq in Hkey. rewrite Hkey.
  rewrite js_substring_head, length_append, length_head_substring, length_stars.
  lia.
Qed.

Lemma getApiKey_is_a_mask this :
  apiKey this <> "" -> getApiKey this <> "No API key set".
Proof.
  intros Hkey Hsame.
  pose proof (length_getApiKey this Hkey) as Hlen.
  rewrite Hsame in Hlen. simpl in Hlen.
  assert (Hchar : String.get 8 (getApiKey this) = Some "*"%char).
  { unfold getApiKey. pose proof Hkey as Hneq.
    apply String.eqb_neq in Hneq. rewrite Hneq.
    rewrite js_substring_head, <- Hlen. simpl Nat.min.
    replace 8%nat
      with (0 + String.length (String.substring 0 8 (apiKey this)))%nat at 1
      by (rewrite length_head_substring, <- Hlen; reflexivity).
    rewrite <- append_correct2. reflexivity. }
  rewrite Hsame in Hchar. discriminate.
Qed.

(** X29: A client that the constructor returned, and a client whose key
    [setApiKey] replaced, hold the key they were given, which is not
    empty; [getApiKey] then shows a mask and never [No API key set];
    [setApiKey] keeps the base URL. *)
Theorem client_key_is_never_empty :
  (forall key (base : option string) client,
      new_PerplexityClient key base = Ok client ->
      key = Some (apiKey client) /\ apiKey client <> ""
      /\ getApiKey client <> "No API key set")
  /\ (forall this key client,
        setApiKey this key = Ok client ->
        key = Some (apiKey client) /\ apiKey client <> ""
        /\ getApiKey client <> "No API key set"
        /\ baseURL client = baseURL this).
Proof.
  split.
  - intros [k|] base client; simpl; [|discriminate].
    destruct (String.eqb_spec k "") as [|Hk]; [discriminate |].
    intros [= <-]. simpl. repeat split; [exact Hk |].
    now apply getApiKey_is_a_mask.
  - intros this [k|] client; simpl; [|discriminate].
    destruct (String.eqb_spec k "") as [|Hk]; [discriminate |].
    intros [= <-]. simpl. repeat split; [exact Hk |].
    now apply getApiKey_is_a_mask.
Qed.

Lemma client_key_is_never_empty_witness :
  getApiKey (mkClient "pplx-new-api-key-here" "https://api.perplexity.ai")
  <> "No API key set".
Proof.
  destruct client_key_is_never_empty as (_ & Hset).
  apply (Hset demo_client (Some "pplx-new-api-key-here")
              (mkClient "pplx-new-api-key-here" "https://api.perplexity.ai")).
  reflexivity.
Defined.

(** Without a key there is no client. *)
Example new_PerplexityClient_requires_key :
  new_PerplexityClient None None = Throw (Error "API key is required")
  /\ new_PerplexityClient (Some "") None = Throw (Error "API key is required")
  /\ setApiKey demo_client (Some "") = Throw (Error "API key cannot be empty").
Proof. repeat split. Qed.

End Keys.
